(** * I2cTestTool: a shallow embedding of [I2cTestTool/main.cpp]

    The console tool reads command lines from [std::wcin], parses them with
    a [std::wistringstream], talks to an I2C device and prints to
    [std::wcout].  The development models

    - the part of the iostream state the program depends on: the unread
      characters, [eofbit], [failbit] and the [basefield] flag of an input
      stream; the text written and the [basefield] flag of an output stream;
    - the functions of the source file ([expect], the three stream operators,
      [MakeDevice], [ShowPrompt], [PrintUsage], [main]);
    - the device as a record of the three transfer methods over an abstract
      device state.

    Characters are 8-bit ([ascii]): [expect] classifies a character with
    [isspace], which is only defined on that range. *)

From Stdlib Require Import ZArith NArith List String Ascii Bool Lia.
From Stdlib.Strings Require Import Byte.
From Stdlib Require DecimalString HexadecimalString.
From Stdlib Require DecimalN HexadecimalN DecimalPos HexadecimalPos.
Import ListNotations.

Local Open Scope string_scope.
Local Open Scope Z_scope.

(** ** Characters *)

Module Chars.

(** [isspace] in the "C" locale: space, and 9..13 (tab, newline, vertical
    tab, form feed, carriage return). *)
Definition isspace (c : ascii) : bool :=
  let n := Z.of_N (N_of_ascii c) in
  (n =? 32) || ((9 <=? n) && (n <=? 13)).

(** Value of a character as a digit, letters in either case. *)
Definition digit_value (c : ascii) : option Z :=
  let n := Z.of_N (N_of_ascii c) in
  if (48 <=? n) && (n <=? 57) then Some (n - 48)
  else if (97 <=? n) && (n <=? 102) then Some (n - 87)
  else if (65 <=? n) && (n <=? 70) then Some (n - 55)
  else None.

(** The digit [c] stands for when numbers are read in base 16 ([hex]) or
    base 10. *)
Definition digit_in_base (hex : bool) (c : ascii) : option Z :=
  match digit_value c with
  | Some d => if hex || (d <? 10) then Some d else None
  | None => None
  end.

Definition is_empty (s : string) : bool :=
  match s with EmptyString => true | String _ _ => false end.

(** Drop leading white space (what the [sentry] of a formatted input
    function does when [skipws] is set). *)
Fixpoint skipws (s : string) : string :=
  match s with
  | EmptyString => EmptyString
  | String c r => if isspace c then skipws r else s
  end.

(** Longest prefix without white space, and what follows it. *)
Fixpoint span_word (s : string) : string * string :=
  match s with
  | EmptyString => (EmptyString, EmptyString)
  | String c r =>
      if isspace c then (EmptyString, s)
      else let (w, t) := span_word r in (String c w, t)
  end.

(** Accumulate the digits at the head of [s]: the value so far, whether a
    digit was seen, and the first character that is not a digit onwards. *)
Fixpoint scan_digits (hex : bool) (s : string) (acc : Z) (seen : bool)
  : Z * bool * string :=
  match s with
  | EmptyString => (acc, seen, EmptyString)
  | String c r =>
      match digit_in_base hex c with
      | Some d => scan_digits hex r (acc * (if hex then 16 else 10) + d) true
      | None => (acc, seen, s)
      end
  end.

(** An optional sign. *)
Definition scan_sign (s : string) : bool * string :=
  match s with
  | String c r =>
      if Ascii.eqb c "-" then (true, r)
      else if Ascii.eqb c "+" then (false, r)
      else (false, s)
  | EmptyString => (false, s)
  end.

(** In base 16 a leading [0x] or [0X] is consumed and digits must follow. *)
Definition scan_prefix (hex : bool) (s : string) : string :=
  match s with
  | String c1 (String c2 r) =>
      if hex && Ascii.eqb c1 "0" && (Ascii.eqb c2 "x" || Ascii.eqb c2 "X")
      then r else s
  | _ => s
  end.

End Chars.

Import Chars.

(** ** Input streams ([std::wistream] over a string) *)

Record wistream : Type := mk_wistream {
  rdbuf : string;      (* characters not read yet *)
  eofbit : bool;
  failbit : bool;
  ihex : bool          (* basefield is hex (otherwise dec) *)
}.

(** [std::wistringstream linestream(line)] *)
Definition wistringstream (line : string) : wistream :=
  {| rdbuf := line; eofbit := false; failbit := false; ihex := false |}.

Definition good (s : wistream) : bool := negb (eofbit s) && negb (failbit s).

(** [is.fail()], which is what [!is] tests; [operator bool] is its negation. *)
Definition fail (s : wistream) : bool := failbit s.

(** [is.clear(state)]: the state becomes exactly [state]. *)
Definition clear (s : wistream) (eof failb : bool) : wistream :=
  {| rdbuf := rdbuf s; eofbit := eof; failbit := failb; ihex := ihex s |}.

(** [is.setstate(failbit)] *)
Definition setstate_fail (s : wistream) : wistream :=
  {| rdbuf := rdbuf s; eofbit := eofbit s; failbit := true; ihex := ihex s |}.

(** [is >> std::hex] *)
Definition set_ihex (s : wistream) : wistream :=
  {| rdbuf := rdbuf s; eofbit := eofbit s; failbit := failbit s; ihex := true |}.

Definition UINT_MAX : Z := 4294967295.

(** [is.get(ch)]: unformatted, no white space is skipped. *)
Definition get (s : wistream) : wistream * option ascii :=
  if negb (good s) then (setstate_fail s, None)
  else match rdbuf s with
       | EmptyString =>
           ({| rdbuf := EmptyString; eofbit := true; failbit := true;
               ihex := ihex s |}, None)
       | String c r =>
           ({| rdbuf := r; eofbit := false; failbit := false;
               ihex := ihex s |}, Some c)
       end.

(** [is >> word] for a [std::wstring] that is empty before the call. *)
Definition extract_word (s : wistream) : wistream * string :=
  if negb (good s) then (setstate_fail s, EmptyString)
  else match skipws (rdbuf s) with
       | EmptyString =>
           ({| rdbuf := EmptyString; eofbit := true; failbit := true;
               ihex := ihex s |}, EmptyString)
       | b =>
           let (w, r) := span_word b in
           ({| rdbuf := r; eofbit := is_empty r; failbit := false;
               ihex := ihex s |}, w)
       end.

(** [is >> n] for an [unsigned int], as [std::num_get] of the C++ library
    does it: white space is skipped, then a sign, in base 16 a [0x] prefix,
    and digits.  No digit, or a value above [UINT_MAX], sets [failbit]; all
    digits are consumed in either case.  A minus sign negates modulo
    [2^32].  [eofbit] is set when the input is used up.  The number returned
    with [failbit] set is never read by the program. *)
Definition extract_uint (s : wistream) : wistream * Z :=
  if negb (good s) then (setstate_fail s, 0)
  else match skipws (rdbuf s) with
       | EmptyString =>
           ({| rdbuf := EmptyString; eofbit := true; failbit := true;
               ihex := ihex s |}, 0)
       | b =>
           let (neg, b1) := scan_sign b in
           let '(v, seen, r) := scan_digits (ihex s) (scan_prefix (ihex s) b1) 0 false in
           if negb seen then
             ({| rdbuf := r; eofbit := is_empty r; failbit := true;
                 ihex := ihex s |}, 0)
           else if v >? UINT_MAX then
             ({| rdbuf := r; eofbit := is_empty r; failbit := true;
                 ihex := ihex s |}, UINT_MAX)
           else
             ({| rdbuf := r; eofbit := is_empty r; failbit := false;
                 ihex := ihex s |},
              if neg then (UINT_MAX + 1 - v) mod (UINT_MAX + 1) else v)
       end.

(** ** Output streams ([std::wostream]) *)

Record wostream : Type := mk_wostream {
  text : string;       (* everything written so far *)
  ohex : bool          (* basefield is hex (otherwise dec) *)
}.

Definition cout_init : wostream := {| text := EmptyString; ohex := false |}.

(** [os << L"..."] *)
Definition put_str (os : wostream) (s : string) : wostream :=
  {| text := text os ++ s; ohex := ohex os |}.

(** [os << std::hex] *)
Definition set_ohex (os : wostream) : wostream :=
  {| text := text os; ohex := true |}.

Definition dec_string (n : Z) : string :=
  DecimalString.NilZero.string_of_uint (N.to_uint (Z.to_N n)).

Definition hex_string (n : Z) : string :=
  HexadecimalString.NilZero.string_of_uint (N.to_hex_uint (Z.to_N n)).

(** Text of an unsigned number in the base of the stream. *)
Definition fmt_uint (hex : bool) (n : Z) : string :=
  if hex then hex_string n else dec_string n.

(** Text of an [int]: in base 16 the 32-bit pattern is printed, in base 10
    a minus sign and the magnitude. *)
Definition fmt_int (hex : bool) (n : Z) : string :=
  if hex then hex_string (n mod (UINT_MAX + 1))
  else if n <? 0 then "-" ++ dec_string (- n) else dec_string n.

(** [os << n] for an [unsigned int] *)
Definition put_uint (os : wostream) (n : Z) : wostream :=
  put_str os (fmt_uint (ohex os) n).

(** [os << n] for an [int] *)
Definition put_int (os : wostream) (n : Z) : wostream :=
  put_str os (fmt_int (ohex os) n).

Notation "os << s" := (put_str os s) (at level 65, left associativity).

(** ** Bytes *)

Definition BYTE : Type := byte.

(** [static_cast<BYTE>(n)] *)
Definition to_BYTE (n : Z) : BYTE :=
  match Byte.of_N (Z.to_N (n mod 256)) with
  | Some b => b
  | None => x00
  end.

Definition BYTE_value (b : BYTE) : Z := Z.of_N (Byte.to_N b).

Definition nl : string := String (ascii_of_nat 10) EmptyString.

(** ** [expect] *)

(** The loop of [expect] once the stream is known to be good: every
    successful [get] removes the head of the buffer, and [get] fails when
    there is none.  Lemma [expect_eq] gives the loop over [get] as the
    source has it. *)
Fixpoint expect_scan (b : string) (hex : bool) (delim : ascii) : wistream :=
  match b with
  | EmptyString =>
      {| rdbuf := EmptyString; eofbit := true; failbit := true; ihex := hex |}
  | String ch r =>
      if Ascii.eqb ch delim then
        {| rdbuf := r; eofbit := false; failbit := false; ihex := hex |}
      else if negb (isspace ch) then
        {| rdbuf := r; eofbit := false; failbit := true; ihex := hex |}
      else expect_scan r hex delim
  end.

Definition expect (ist : wistream) (delim : ascii) : wistream :=
  if negb (good ist) then setstate_fail ist
  else expect_scan (rdbuf ist) (ihex ist) delim.

(** ** [operator>> (std::wistream&, std::vector<BYTE>&)] *)

(** How the [while] loop of the operator was left. *)
Inductive loop_exit : Type :=
| ReadFailed      (* the condition [is >> std::hex >> byte] was false *)
| OutOfRange.     (* [return is] from inside the loop *)

(** The [while] loop.  Every iteration that goes on has consumed at least
    one character, so [fuel] above the length of the buffer is never used
    up (lemma [read_bytes_fuel]). *)
Fixpoint read_bytes (fuel : nat) (ist : wistream) (os : wostream)
  (bytes : list BYTE) : wistream * wostream * list BYTE * loop_exit :=
  let (ist1, byte) := extract_uint (set_ihex ist) in
  if fail ist1 then (ist1, os, bytes, ReadFailed)
  else if byte >? 255 then
    (clear ist1 false true,
     put_str (put_uint (set_ohex (os << "Out of range [0, 0xff]: ")) byte) nl,
     bytes, OutOfRange)
  else match fuel with
       | O => (ist1, os, (bytes ++ [to_BYTE byte])%list, ReadFailed)
       | S fuel' => read_bytes fuel' ist1 os ((bytes ++ [to_BYTE byte])%list)
       end.

Definition is_nil {A : Type} (l : list A) : bool :=
  match l with [] => true | _ :: _ => false end.

(** The operator; [os] is [std::wcout], to which it writes its diagnostics.
    The vector is cleared first, so the result does not depend on what it
    held. *)
Definition operator_in_bytes (ist : wistream) (os : wostream)
  : wistream * wostream * list BYTE :=
  let ist0 := expect ist "{" in
  if fail ist0 then (ist0, os << "Syntax error: expecting '{'" ++ nl, [])
  else
    match read_bytes (String.length (rdbuf ist0)) ist0 os [] with
    | (ist1, os1, bytes, OutOfRange) => (ist1, os1, bytes)
    | (ist1, os1, bytes, ReadFailed) =>
        if is_nil bytes then
          (clear ist1 false true,
           os1 << "Zero-length buffers are not allowed" ++ nl, bytes)
        else
          let ist2 := expect (clear ist1 false false) "}" in
          if fail ist2 then (ist2, os1 << "Syntax error: expecting '}'" ++ nl, bytes)
          else (ist2, os1, bytes)
    end.

(** ** [operator<< (std::wostream&, const Platform::Array<BYTE>^)] *)

Fixpoint operator_out_bytes (os : wostream) (bytes : list BYTE) : wostream :=
  match bytes with
  | [] => os
  | byte :: rest =>
      operator_out_bytes (put_int (set_ohex (os << " ")) (BYTE_value byte)) rest
  end.

(** ** The device ([Windows::Devices::I2c]) *)

(** The three values the program's [switch] names, and any other value. *)
Inductive I2cTransferStatus : Type :=
| FullTransfer
| PartialTransfer
| SlaveAddressNotAcknowledged
| OtherStatus (value : Z).

Record I2cTransferResult : Type := mk_result {
  Status : I2cTransferStatus;
  BytesTransferred : Z          (* a UINT32 *)
}.

Inductive I2cBusSpeed : Type := StandardMode | FastMode | OtherSpeed.

(** A call into the platform returns or throws a [Platform::Exception]. *)
Inductive call (A : Type) : Type :=
| Returned (a : A)
| Raised (message : string).
Arguments Returned {A} a.
Arguments Raised {A} message.

(** A device over the state [D] of the bus.  The read methods are given the
    read buffer and answer with the bytes the device stored at its start. *)
Record I2cDevice (D : Type) : Type := mk_device {
  WritePartial : D -> list BYTE -> call I2cTransferResult * D;
  ReadPartial : D -> list BYTE -> call (I2cTransferResult * list BYTE) * D;
  WriteReadPartial :
    D -> list BYTE -> list BYTE -> call (I2cTransferResult * list BYTE) * D;
  SlaveAddress : Z;
  BusSpeed : I2cBusSpeed;
  DeviceId : string
}.
Arguments WritePartial {D} _ _ _.
Arguments ReadPartial {D} _ _ _.
Arguments WriteReadPartial {D} _ _ _ _.
Arguments SlaveAddress {D} _.
Arguments BusSpeed {D} _.
Arguments DeviceId {D} _.

(** [ref new Platform::Array<BYTE>(n)]: [n] bytes, all zero. *)
Definition new_Array (n : Z) : list BYTE := repeat x00 (Z.to_nat n).

(** The array after the device stored [data] at its start; its size is
    fixed. *)
Definition store (buf data : list BYTE) : list BYTE :=
  (firstn (List.length buf) data ++ skipn (List.length data) buf)%list.

(** Conversion of an integer to [int]. *)
Definition to_int32 (n : Z) : Z :=
  let m := n mod (UINT_MAX + 1) in
  if m <? 2147483648 then m else m - (UINT_MAX + 1).

(** What a function of the program throws. *)
Inductive exn : Type :=
| wexception (msg : string)
| Platform_Exception (msg : string).

(** [operator<< (std::wostream&, const I2cTransferResult&)] *)
Definition operator_out_result (os : wostream) (result : I2cTransferResult)
  : wostream + exn :=
  match Status result with
  | FullTransfer => inl os
  | PartialTransfer =>
      inl (put_uint (os << "Partial Transfer. Transferred ")
             (BytesTransferred result) << " bytes" ++ nl)
  | SlaveAddressNotAcknowledged =>
      inl (os << "Slave address was not acknowledged" ++ nl)
  | OtherStatus _ => inr (wexception "Invalid transfer status value")
  end.

(** [operator<< (std::wostream&, I2cBusSpeed)] *)
Definition operator_out_busSpeed (os : wostream) (busSpeed : I2cBusSpeed)
  : wostream :=
  match busSpeed with
  | StandardMode => os << "StandardMode (100Khz)"
  | FastMode => os << "FastMode (400kHz)"
  | OtherSpeed => os << "[Invalid bus speed]"
  end.

Definition Help : string :=
  "Commands:" ++ nl ++
  " > write { 00 11 22 .. FF }         Write supplied buffer" ++ nl ++
  " > read N                           Read N bytes" ++ nl ++
  " > writeread { 00 11 .. FF } N      Write buffer, restart, read N bytes" ++ nl ++
  " > info                             Display device information" ++ nl ++
  " > help                             Display this help message" ++ nl ++
  " > quit                             Quit" ++ nl ++ nl.

(** ** [ShowPrompt] *)

(** How the body of the [while] loop ends for one line. *)
Inductive flow : Type :=
| Next                (* [continue], or the end of the body *)
| Return              (* [return] *)
| Throw (e : exn).

Section Session.

Context {D : Type}.
Variable device : I2cDevice D.

(** The [write] branch after the buffer was parsed: the call and the
    [switch] on its status. *)
Definition transfer_write (writeBuf : list BYTE) (d : D) (wcout : wostream)
  : flow * D * wostream :=
  match WritePartial device d writeBuf with
  | (Raised m, d) => (Throw (Platform_Exception m), d, wcout)
  | (Returned result, d) =>
      match Status result with
      | FullTransfer => (Next, d, wcout)
      | PartialTransfer =>
          (Next, d,
           put_uint (wcout << "Partial Transfer. Transferred ")
             (BytesTransferred result) << " bytes" ++ nl)
      | SlaveAddressNotAcknowledged =>
          (Next, d, wcout << "Slave address was not acknowledged" ++ nl)
      | OtherStatus _ =>
          (Throw (wexception "Invalid transfer status value"), d, wcout)
      end
  end.

(** The [write] branch; [linestream] is the stream after the command
    word. *)
Definition do_write (linestream : wistream) (d : D) (wcout : wostream)
  : flow * D * wostream :=
  let '(ls, wcout, writeBuf) := operator_in_bytes linestream wcout in
  if fail ls then (Next, d, wcout << "Usage: write { 55 a0 ... ff }" ++ nl)
  else transfer_write writeBuf d wcout.

(** The [read] branch after the number was read. *)
Definition transfer_read (bytesToRead : Z) (d : D) (wcout : wostream)
  : flow * D * wostream :=
  let readBuf := new_Array bytesToRead in
  match ReadPartial device d readBuf with
  | (Raised m, d) => (Throw (Platform_Exception m), d, wcout)
  | (Returned (result, data), d) =>
      let readBuf := store readBuf data in
      match Status result with
      | FullTransfer => (Next, d, operator_out_bytes wcout readBuf << nl)
      | PartialTransfer =>
          let wcout :=
            put_uint (wcout << "Partial Transfer. Transferred ")
              (BytesTransferred result) << " bytes" ++ nl in
          (Next, d, operator_out_bytes wcout readBuf << nl)
      | SlaveAddressNotAcknowledged =>
          (Next, d, wcout << "Slave address was not acknowledged" ++ nl)
      | OtherStatus _ =>
          (Throw (wexception "Invalid transfer status value"), d, wcout)
      end
  end.

(** The [read] branch. *)
Definition do_read (linestream : wistream) (d : D) (wcout : wostream)
  : flow * D * wostream :=
  let (ls, bytesToRead) := extract_uint linestream in
  if fail ls then (Next, d, wcout << "Expecting integer. e.g: read 4" ++ nl)
  else transfer_read bytesToRead d wcout.

(** The [writeread] branch after its two arguments were read. *)
Definition transfer_writeread (writeBuf : list BYTE) (bytesToRead : Z)
  (d : D) (wcout : wostream) : flow * D * wostream :=
  let readBuf := new_Array bytesToRead in
  match WriteReadPartial device d writeBuf readBuf with
  | (Raised m, d) => (Throw (Platform_Exception m), d, wcout)
  | (Returned (result, data), d) =>
      let readBuf := store readBuf data in
      match Status result with
      | FullTransfer => (Next, d, operator_out_bytes wcout readBuf << nl)
      | PartialTransfer =>
          let wcout :=
            put_uint (wcout << "Partial Transfer. Transferred ")
              (BytesTransferred result) << " bytes" ++ nl in
          let bytesRead :=
            to_int32 (BytesTransferred result
                      - Z.of_nat (List.length writeBuf)) in
          if bytesRead >? 0 then
            (Next, d, operator_out_bytes wcout readBuf << nl)
          else (Next, d, wcout)
      | SlaveAddressNotAcknowledged =>
          (Next, d, wcout << "Slave address was not acknowledged" ++ nl)
      | OtherStatus _ =>
          (Throw (wexception "Invalid transfer status value"), d, wcout)
      end
  end.

(** The [writeread] branch. *)
Definition do_writeread (linestream : wistream) (d : D) (wcout : wostream)
  : flow * D * wostream :=
  let '(ls, wcout, writeBuf) := operator_in_bytes linestream wcout in
  if fail ls then
    (Next, d, wcout << "Usage: writeread { 55 a0 ... ff } 4" ++ nl)
  else
    let (ls, bytesToRead) := extract_uint ls in
    if fail ls then
      (Next, d,
       wcout << "Syntax error: expecting integer" ++ nl
             << "Usage: writeread { 55 a0 ... ff } 4" ++ nl)
    else transfer_writeread writeBuf bytesToRead d wcout.

(** The [info] branch. *)
Definition do_info (wcout : wostream) : wostream :=
  let wcout := wcout << "       DeviceId: " << DeviceId device << nl in
  let wcout :=
    put_int (set_ohex (wcout << "  Slave address: 0x")) (SlaveAddress device)
      << nl in
  operator_out_busSpeed (wcout << "      Bus Speed: ") (BusSpeed device) << nl.

(** The body of the loop from the construction of [linestream] on. *)
Definition ShowPrompt_line (line : string) (d : D) (wcout : wostream)
  : flow * D * wostream :=
  let (linestream, command) := extract_word (wistringstream line) in
  if (command =? "q")%string || (command =? "quit")%string then
    (Return, d, wcout)
  else if (command =? "h")%string || (command =? "help")%string then
    (Next, d, wcout << Help)
  else if (command =? "write")%string then do_write linestream d wcout
  else if (command =? "read")%string then do_read linestream d wcout
  else if (command =? "writeread")%string then
    do_writeread linestream d wcout
  else if (command =? "info")%string then (Next, d, do_info wcout)
  else if is_empty command then (Next, d, wcout)
  else
    (Next, d,
     wcout << "Unrecognized command: " << command
           << ". Type 'help' for command usage." ++ nl).

(** [ShowPrompt]; [wcin] holds the lines still to be read, and [getline]
    fails when there is none. *)
Fixpoint ShowPrompt (d : D) (wcin : list string) (wcout : wostream)
  : option exn * D * wostream :=
  let wcout := wcout << "> " in
  match wcin with
  | [] => (None, d, wcout)
  | line :: wcin' =>
      match ShowPrompt_line line d wcout with
      | (Next, d', wcout') => ShowPrompt d' wcin' wcout'
      | (Return, d', wcout') => (None, d', wcout')
      | (Throw e, d', wcout') => (Some e, d', wcout')
      end
  end.

End Session.

(** ** [MakeDevice], [PrintUsage] and [main] *)

Section Program.

Context {D : Type}.
Variable device : I2cDevice D.

(** The platform: [wcstoul] with base 0; the identifiers of the buses
    [DeviceInformation::FindAllAsync] finds for the selector of a friendly
    name (or of none); [I2cDevice::FromIdAsync], which gives the initial
    state of the device or a null handle. *)
Variable wcstoul : string -> Z.
Variable FindAllAsync : option string -> call (list string).
Variable FromIdAsync : string -> Z -> call (option D).

Definition MakeDevice (slaveAddress : Z) (friendlyName : option string)
  : D + exn :=
  match FindAllAsync friendlyName with
  | Raised m => inr (Platform_Exception m)
  | Returned dis =>
      match dis with
      | [id] =>
          match FromIdAsync id slaveAddress with
          | Raised m => inr (Platform_Exception m)
          | Returned None =>
              inr (wexception
                     ("Slave address 0x" ++ fmt_int true slaveAddress ++
                      " on bus " ++ id ++
                      " is in use. Please ensure that no other applications are using I2C."))
          | Returned (Some d) => inl d
          end
      | _ => inr (wexception "I2C bus not found")
      end
  end.

(** [wprintf] writes to the standard output, as [std::wcout] does. *)
Definition PrintUsage (wcout : wostream) (name : string) : wostream :=
  wcout << "I2cTestTool: Command line I2C testing utility" ++ nl
        << "Usage: " ++ name ++ " SlaveAddress [FriendlyName]" ++ nl
        << "Examples:" ++ nl
        << "  " ++ name ++ " 0x57" ++ nl
        << "  " ++ name ++ " 0x57 I2C1" ++ nl.

(** What [main] leaves behind. *)
Record exit : Type := mk_exit {
  exit_code : Z;
  wcout_end : wostream;
  wcerr_end : wostream
}.

Definition report (wcerr : wostream) (e : exn) : wostream :=
  match e with
  | wexception m => wcerr << "Error: " << m << nl
  | Platform_Exception m => wcerr << "Error: " << m << nl
  end.

(** [main]; [args] is [name :: params], and [wcin] the lines of the
    standard input. *)
Definition main (name : string) (params : list string) (wcin : list string)
  : exit :=
  let wcout := cout_init in
  let wcerr := cout_init in
  match params with
  | [] =>
      {| exit_code := 1;
         wcout_end := PrintUsage wcout name;
         wcerr_end :=
           wcerr << "Missing required command line parameter SlaveAddress"
                    ++ nl ++ nl |}
  | arg :: more =>
      if (arg =? "-h")%string then
        {| exit_code := 0; wcout_end := PrintUsage wcout name;
           wcerr_end := wcerr |}
      else
        let slaveAddress := to_int32 (wcstoul arg) in
        let friendlyName :=
          match more with f :: _ => Some f | [] => None end in
        match MakeDevice slaveAddress friendlyName with
        | inr (wexception m) =>
            {| exit_code := 1; wcout_end := wcout;
               wcerr_end := report wcerr (wexception m) |}
        | inr (Platform_Exception m) =>
            {| exit_code := 0; wcout_end := wcout;
               wcerr_end := report wcerr (Platform_Exception m) |}
        | inl d =>
            let wcout := wcout << "  Type 'help' for a list of commands" ++ nl in
            match ShowPrompt device d wcin wcout with
            | (None, _, wcout) =>
                {| exit_code := 0; wcout_end := wcout; wcerr_end := wcerr |}
            | (Some (wexception m), _, wcout) =>
                {| exit_code := 1; wcout_end := wcout;
                   wcerr_end := report wcerr (wexception m) |}
            | (Some (Platform_Exception m), _, wcout) =>
                {| exit_code := 0; wcout_end := wcout;
                   wcerr_end := report wcerr (Platform_Exception m) |}
            end
        end
  end.

End Program.

(** ** Simulated devices *)

(** What a device was asked to do. *)
Inductive request : Type :=
| ReqWrite (writeBuf : list BYTE)
| ReqRead (bytesToRead : Z)
| ReqWriteRead (writeBuf : list BYTE) (bytesToRead : Z).

(** A device that answers every call with [result] and stores [data] in the
    read buffer; its state is the list of the requests it has received. *)
Definition sim_device (result : I2cTransferResult) (data : list BYTE)
  : I2cDevice (list request) :=
  {| WritePartial := fun log bytes =>
       (Returned result, (log ++ [ReqWrite bytes])%list);
     ReadPartial := fun log buf =>
       (Returned (result, data), (log ++ [ReqRead (Z.of_nat (List.length buf))])%list);
     WriteReadPartial := fun log bytes buf =>
       (Returned (result, data),
        (log ++ [ReqWriteRead bytes (Z.of_nat (List.length buf))])%list);
     SlaveAddress := 87;
     BusSpeed := StandardMode;
     DeviceId := "I2C1" |}.

(** ** The request of a line *)

(** The transfer a line asks for: the parsing steps of the three transfer
    branches of [ShowPrompt_line], without the calls.  Parsing does not
    depend on what the output stream holds (lemma
    [operator_in_bytes_any_output]). *)
Definition parse_request (line : string) : option request :=
  let (linestream, command) := extract_word (wistringstream line) in
  if (command =? "write")%string then
    let '(ls, _, writeBuf) := operator_in_bytes linestream cout_init in
    if fail ls then None else Some (ReqWrite writeBuf)
  else if (command =? "read")%string then
    let (ls, bytesToRead) := extract_uint linestream in
    if fail ls then None else Some (ReqRead bytesToRead)
  else if (command =? "writeread")%string then
    let '(ls, _, writeBuf) := operator_in_bytes linestream cout_init in
    if fail ls then None
    else
      let (ls, bytesToRead) := extract_uint ls in
      if fail ls then None else Some (ReqWriteRead writeBuf bytesToRead)
  else None.

(** A line whose first words are a command of the tool with the arguments
    it needs. *)
Definition complete_command (line : string) : bool :=
  let command := snd (extract_word (wistringstream line)) in
  (command =? "q")%string || (command =? "quit")%string ||
  (command =? "h")%string || (command =? "help")%string ||
  (command =? "info")%string ||
  match parse_request line with Some _ => true | None => false end.

Section Requests.

Context {D : Type}.
Variable device : I2cDevice D.

(** The call of a request and its [switch]. *)
Definition perform (req : request) (d : D) (wcout : wostream)
  : flow * D * wostream :=
  match req with
  | ReqWrite writeBuf => transfer_write device writeBuf d wcout
  | ReqRead bytesToRead => transfer_read device bytesToRead d wcout
  | ReqWriteRead writeBuf bytesToRead =>
      transfer_writeread device writeBuf bytesToRead d wcout
  end.

(** The answer of the device to a request: the result, and the read
    buffer after the call (none for a write). *)
Definition answer (req : request) (d : D)
  : call (I2cTransferResult * list BYTE) * D :=
  match req with
  | ReqWrite writeBuf =>
      match WritePartial device d writeBuf with
      | (Returned result, d') => (Returned (result, []), d')
      | (Raised m, d') => (Raised m, d')
      end
  | ReqRead bytesToRead =>
      match ReadPartial device d (new_Array bytesToRead) with
      | (Returned (result, data), d') =>
          (Returned (result, store (new_Array bytesToRead) data), d')
      | (Raised m, d') => (Raised m, d')
      end
  | ReqWriteRead writeBuf bytesToRead =>
      match WriteReadPartial device d writeBuf (new_Array bytesToRead) with
      | (Returned (result, data), d') =>
          (Returned (result, store (new_Array bytesToRead) data), d')
      | (Raised m, d') => (Raised m, d')
      end
  end.

End Requests.

(** ** The specification's reading of the output *)

(** A byte as two lowercase hexadecimal digits. *)
Definition spec_two_digits (b : BYTE) : string :=
  (if BYTE_value b <? 16 then "0" else "") ++ hex_string (BYTE_value b).

(** Bytes separated by single spaces, each as two digits. *)
Fixpoint spec_format (bytes : list BYTE) : string :=
  match bytes with
  | [] => ""
  | [b] => spec_two_digits b
  | b :: rest => spec_two_digits b ++ " " ++ spec_format rest
  end.

(** The bytes of the read phase of a write-read transfer that moved
    [transferred] bytes in all: as many as were moved beyond the write
    buffer, from the start of the read buffer. *)
Definition spec_dataRead (transferred : Z) (writeBuf readBuf : list BYTE)
  : list BYTE :=
  let captured := transferred - Z.of_nat (List.length writeBuf) in
  if captured >? 0 then firstn (Z.to_nat captured) readBuf else [].

(** ** Vocabulary of the properties *)

(** A string of white space. *)
Fixpoint all_space (s : string) : bool :=
  match s with
  | EmptyString => true
  | String c r => isspace c && all_space r
  end.

(** The text of the out-of-range diagnostic for the number [v]. *)
Definition out_of_range_line (v : Z) : string :=
  "Out of range [0, 0xff]: " ++ hex_string v ++ nl.

(** The four diagnostics of the byte-buffer operator. *)
Definition diagnostic (line : string) : Prop :=
  line = "Syntax error: expecting '{'" ++ nl \/
  line = "Zero-length buffers are not allowed" ++ nl \/
  line = "Syntax error: expecting '}'" ++ nl \/
  exists v, 255 < v <= UINT_MAX /\ line = out_of_range_line v.

(** What the program prints for an array: before every byte a space, the
    byte in base 16 with as many digits as it needs. *)
Fixpoint render_bytes (bytes : list BYTE) : string :=
  match bytes with
  | [] => ""
  | b :: rest => " " ++ hex_string (BYTE_value b) ++ render_bytes rest
  end.

Definition is_lower_hex (c : ascii) : bool :=
  let n := Z.of_N (N_of_ascii c) in
  ((48 <=? n) && (n <=? 57)) || ((97 <=? n) && (n <=? 102)).

(** Only the digits 0..9 and a..f. *)
Fixpoint lowercase_hex (s : string) : bool :=
  match s with
  | EmptyString => true
  | String c r => is_lower_hex c && lowercase_hex r
  end.

(** The number of bytes a request asks to read. *)
Definition request_count (req : request) : Z :=
  match req with
  | ReqWrite _ => 0
  | ReqRead n => n
  | ReqWriteRead _ n => n
  end.

Definition not_acknowledged_line : string :=
  "Slave address was not acknowledged" ++ nl.

Definition partial_transfer_line (hex : bool) (transferred : Z) : string :=
  "Partial Transfer. Transferred " ++ fmt_uint hex transferred ++ " bytes" ++ nl.


(** A status the [switch] of the program names. *)
Definition known (st : I2cTransferStatus) : bool :=
  match st with
  | OtherStatus _ => false
  | _ => true
  end.


(** The first word of the line is [q] or [quit]. *)
Definition quits (line : string) : bool :=
  let command := snd (extract_word (wistringstream line)) in
  (command =? "q")%string || (command =? "quit")%string.


(** The stream over a line that goes on with the character [c] and the
    text [rest], at the same position: more to read, and the end not
    reached. *)
Definition relax (c : ascii) (rest : string) (s : wistream) : wistream :=
  {| rdbuf := rdbuf s ++ String c rest; eofbit := false;
     failbit := failbit s; ihex := ihex s |}.

(** ** Vocabulary of the further properties *)

(** A word: no white space in it. *)
Fixpoint no_space (s : string) : bool :=
  match s with
  | EmptyString => true
  | String c r => negb (isspace c) && no_space r
  end.

(** The token [tok] is a spelling of the number [v] for the extraction in
    base 16: read on its own it is used up, and the extraction succeeds
    with [v].  (Upper or lower case digits, leading zeros, a sign, a [0x]
    prefix.) *)
Definition reads_as (tok : string) (v : Z) : Prop :=
  extract_uint
    {| rdbuf := tok; eofbit := false; failbit := false; ihex := true |}
  = ({| rdbuf := ""; eofbit := true; failbit := false; ihex := true |}, v).

(** Tokens in a line, a space before each. *)
Fixpoint spaced (toks : list string) : string :=
  match toks with
  | [] => ""
  | tok :: rest => " " ++ tok ++ spaced rest
  end.

(** What the [info] branch prints. *)
Definition info_text {D : Type} (device : I2cDevice D) : string :=
  "       DeviceId: " ++ DeviceId device ++ nl ++
  "  Slave address: 0x" ++ hex_string (SlaveAddress device mod (UINT_MAX + 1))
    ++ nl ++
  "      Bus Speed: " ++
  match BusSpeed device with
  | StandardMode => "StandardMode (100Khz)"
  | FastMode => "FastMode (400kHz)"
  | OtherSpeed => "[Invalid bus speed]"
  end ++ nl.

(** The words [ShowPrompt] knows. *)
Definition is_command (w : string) : bool :=
  (w =? "q")%string || (w =? "quit")%string || (w =? "h")%string ||
  (w =? "help")%string || (w =? "write")%string || (w =? "read")%string ||
  (w =? "writeread")%string || (w =? "info")%string.

(** The transfers of a session, line by line up to the first [quit]. *)
Fixpoint session_requests (wcin : list string) : list request :=
  match wcin with
  | [] => []
  | line :: rest =>
      if quits line then []
      else match parse_request line with
           | Some req => req :: session_requests rest
           | None => session_requests rest
           end
  end.

Definition in_use_message (slaveAddress : Z) (id : string) : string :=
  "Slave address 0x" ++ fmt_int true slaveAddress ++ " on bus " ++ id ++
  " is in use. Please ensure that no other applications are using I2C.".

(** The friendly name [main] passes on. *)
Definition friendly (more : list string) : option string :=
  match more with f :: _ => Some f | [] => None end.

(** * Properties *)

(** Split an equation between tuples into its components and substitute,
    without normalising the components. *)
Ltac pinv H :=
  repeat (apply pair_equal_spec in H;
          let H' := fresh H in destruct H as [H H']);
  subst.

Lemma Returned_inj {A : Type} (a b : A) : Returned a = Returned b -> a = b.
Proof. intros H. congruence. Qed.

(** ** Strings *)

Lemma append_assoc (a b c : string) : (a ++ b) ++ c = a ++ (b ++ c).
Proof.
  induction a as [|ch a IH]; simpl; [reflexivity|].
  now rewrite IH.
Qed.

Lemma append_nil_r (a : string) : a ++ "" = a.
Proof.
  induction a as [|ch a IH]; simpl; [reflexivity|].
  now rewrite IH.
Qed.

Lemma length_append (a b : string) :
  String.length (a ++ b) = (String.length a + String.length b)%nat.
Proof.
  induction a as [|ch a IH]; simpl; [reflexivity|].
  now rewrite IH.
Qed.

(** ** Characters *)

Lemma isspace_not_digit (hex : bool) (c : ascii) :
  isspace c = true -> digit_in_base hex c = None.
Proof.
  unfold isspace, digit_in_base, digit_value.
  generalize (Z.of_N (N_of_ascii c)). intros n H.
  repeat match goal with
         | |- context [if ?b then _ else _] => destruct b eqn:?
         end; try reflexivity; lia.
Qed.

Lemma digit_value_range (c : ascii) (d : Z) :
  digit_value c = Some d -> 0 <= d < 16.
Proof.
  unfold digit_value.
  generalize (Z.of_N (N_of_ascii c)). intros n.
  repeat match goal with
         | |- context [if ?b then _ else _] => destruct b eqn:?
         end; intros H; inversion H; lia.
Qed.

Lemma digit_in_base_range (hex : bool) (c : ascii) (d : Z) :
  digit_in_base hex c = Some d -> 0 <= d < 16.
Proof.
  unfold digit_in_base. destruct (digit_value c) as [d'|] eqn:E; [|discriminate].
  destruct (hex || (d' <? 10)); [|discriminate].
  intros H. inversion H. subst. eapply digit_value_range; eauto.
Qed.

Lemma skipws_length (s : string) :
  (String.length (skipws s) <= String.length s)%nat.
Proof.
  induction s as [|c r IH]; simpl; [lia|].
  destruct (isspace c); simpl; lia.
Qed.

Lemma scan_sign_length (s : string) :
  (String.length (snd (scan_sign s)) <= String.length s)%nat.
Proof.
  destruct s as [|c r]; simpl; [lia|].
  destruct (Ascii.eqb c "-"); [simpl; lia|].
  destruct (Ascii.eqb c "+"); simpl; lia.
Qed.

Lemma scan_prefix_length (hex : bool) (s : string) :
  (String.length (scan_prefix hex s) <= String.length s)%nat.
Proof.
  destruct s as [|c1 [|c2 r]]; simpl; try lia.
  destruct (hex && Ascii.eqb c1 "0" && (Ascii.eqb c2 "x" || Ascii.eqb c2 "X"));
    simpl; lia.
Qed.

Lemma scan_digits_length (hex : bool) (s : string) :
  forall acc seen v seen' r,
    scan_digits hex s acc seen = (v, seen', r) ->
    (String.length r <= String.length s)%nat /\
    (seen = false -> seen' = true -> String.length r < String.length s)%nat.
Proof.
  induction s as [|c s IH]; simpl; intros acc seen v seen' r H.
  - inversion H; subst. split; [simpl; lia | congruence].
  - destruct (digit_in_base hex c) as [d|].
    + apply IH in H. destruct H as [H _]. split; intros; lia.
    + inversion H; subst. split; [simpl; lia | congruence].
Qed.

Lemma scan_digits_nonneg (hex : bool) (s : string) :
  forall acc seen v seen' r,
    scan_digits hex s acc seen = (v, seen', r) -> 0 <= acc -> 0 <= v.
Proof.
  induction s as [|c s IH]; simpl; intros acc seen v seen' r H Hacc.
  - inversion H; subst; assumption.
  - destruct (digit_in_base hex c) as [d|] eqn:E.
    + apply digit_in_base_range in E.
      eapply IH; [exact H|]. destruct hex; lia.
    + inversion H; subst; assumption.
Qed.

(** ** [extract_uint] *)

Arguments extract_uint : simpl never.
Arguments extract_word : simpl never.
Arguments hex_string : simpl never.
Arguments dec_string : simpl never.
Arguments to_BYTE : simpl never.
Arguments to_int32 : simpl never.

(** A successful extraction yields an [unsigned int]. *)
Lemma extract_uint_range (s s' : wistream) (n : Z) :
  extract_uint s = (s', n) -> fail s' = false -> 0 <= n <= UINT_MAX.
Proof.
  unfold extract_uint, fail.
  destruct (negb (good s)); [intros H; pinv H; discriminate|].
  destruct (skipws (rdbuf s)) as [|c b] eqn:Eb; [intros H; pinv H; discriminate|].
  destruct (scan_sign (String c b)) as [neg b1].
  destruct (scan_digits (ihex s) (scan_prefix (ihex s) b1) 0 false)
    as [[v seen] r] eqn:Es.
  apply scan_digits_nonneg in Es; [|lia].
  destruct (negb seen); [intros H; pinv H; discriminate|].
  destruct (v >? UINT_MAX) eqn:Ev; [intros H; pinv H; discriminate|].
  intros H _. pinv H.
  rewrite Z.gtb_ltb in Ev. apply Z.ltb_ge in Ev.
  destruct neg; [|split; assumption].
  assert (0 < UINT_MAX + 1) as Hp by reflexivity.
  apply (Z.mod_pos_bound (UINT_MAX + 1 - v)) in Hp.
  destruct Hp as [Hp1 Hp2]. split; [assumption|].
  apply Z.lt_succ_r. exact Hp2.
Qed.

(** A successful extraction consumes at least one character. *)
Lemma extract_uint_consumes (s s' : wistream) (n : Z) :
  extract_uint s = (s', n) -> fail s' = false ->
  (String.length (rdbuf s') < String.length (rdbuf s))%nat.
Proof.
  unfold extract_uint, fail.
  destruct (negb (good s)); [intros H; pinv H; discriminate|].
  pose proof (skipws_length (rdbuf s)) as Hws.
  destruct (skipws (rdbuf s)) as [|c b] eqn:Eb; [intros H; pinv H; discriminate|].
  pose proof (scan_sign_length (String c b)) as Hsg.
  destruct (scan_sign (String c b)) as [neg b1]. simpl snd in Hsg.
  pose proof (scan_prefix_length (ihex s) b1) as Hpx.
  destruct (scan_digits (ihex s) (scan_prefix (ihex s) b1) 0 false)
    as [[v seen] r] eqn:Es.
  apply scan_digits_length in Es. destruct Es as [_ Es].
  destruct seen; simpl negb; cbv iota; [|intros H; pinv H; discriminate].
  specialize (Es eq_refl eq_refl).
  destruct (v >? UINT_MAX); intros H; pinv H; simpl; [discriminate|].
  intros _. simpl String.length in *. lia.
Qed.

(** An extraction leaves the base of the stream as it is. *)
Lemma extract_uint_ihex (s s' : wistream) (n : Z) :
  extract_uint s = (s', n) -> ihex s' = ihex s.
Proof.
  unfold extract_uint.
  destruct (negb (good s)); [intros H; pinv H; reflexivity|].
  destruct (skipws (rdbuf s)) as [|c b]; [intros H; pinv H; reflexivity|].
  destruct (scan_sign (String c b)) as [neg b1].
  destruct (scan_digits (ihex s) (scan_prefix (ihex s) b1) 0 false)
    as [[v seen] r].
  destruct (negb seen); [intros H; pinv H; reflexivity|].
  destruct (v >? UINT_MAX); intros H; pinv H; reflexivity.
Qed.

(** ** The loop of the byte-buffer operator *)

Lemma set_ihex_rdbuf (s : wistream) : rdbuf (set_ihex s) = rdbuf s.
Proof. reflexivity. Qed.

(** One turn of the loop. *)
Lemma read_bytes_eq (fuel : nat) (ist : wistream) (os : wostream)
  (bytes : list BYTE) :
  read_bytes fuel ist os bytes =
    let (ist1, byte) := extract_uint (set_ihex ist) in
    if fail ist1 then (ist1, os, bytes, ReadFailed)
    else if byte >? 255 then
      (clear ist1 false true,
       put_str (put_uint (set_ohex (os << "Out of range [0, 0xff]: ")) byte) nl,
       bytes, OutOfRange)
    else match fuel with
         | O => (ist1, os, (bytes ++ [to_BYTE byte])%list, ReadFailed)
         | S fuel' => read_bytes fuel' ist1 os (bytes ++ [to_BYTE byte])%list
         end.
Proof. destruct fuel; reflexivity. Qed.

(** With fuel for every character of the buffer, the loop is left through
    one of its two exits, both with [failbit] set: the fuel is not used
    up. *)
Lemma read_bytes_fail (fuel : nat) :
  forall ist os bytes ist' os' bytes' e,
    (String.length (rdbuf ist) <= fuel)%nat ->
    read_bytes fuel ist os bytes = (ist', os', bytes', e) ->
    fail ist' = true.
Proof.
  induction fuel as [|fuel IH]; intros ist os bytes ist' os' bytes' e Hlen;
    rewrite read_bytes_eq;
    destruct (extract_uint (set_ihex ist)) as [ist1 byte] eqn:E;
    destruct (fail ist1) eqn:F; try (intros H; pinv H; assumption);
    destruct (byte >? 255); try (intros H; pinv H; reflexivity);
    apply extract_uint_consumes in E; try assumption;
    rewrite set_ihex_rdbuf in E; [lia|].
  apply IH. lia.
Qed.

(** More fuel than the buffer is long changes nothing. *)
Lemma read_bytes_fuel (f1 : nat) :
  forall f2 ist os bytes,
    (String.length (rdbuf ist) <= f1)%nat ->
    (String.length (rdbuf ist) <= f2)%nat ->
    read_bytes f1 ist os bytes = read_bytes f2 ist os bytes.
Proof.
  induction f1 as [|f1 IH]; intros f2 ist os bytes H1 H2;
    rewrite (read_bytes_eq f2), read_bytes_eq;
    destruct (extract_uint (set_ihex ist)) as [ist1 byte] eqn:E;
    destruct (fail ist1) eqn:F; try reflexivity;
    destruct (byte >? 255); try reflexivity;
    apply extract_uint_consumes in E; try assumption;
    rewrite set_ihex_rdbuf in E; [lia|].
  destruct f2 as [|f2]; [lia|]. apply IH; lia.
Qed.

(** The loop writes to the output only on its out-of-range exit, and then
    one line that names a number above [0xff]. *)
Lemma read_bytes_output (fuel : nat) :
  forall ist os bytes ist' os' bytes' e,
    read_bytes fuel ist os bytes = (ist', os', bytes', e) ->
    match e with
    | ReadFailed => os' = os
    | OutOfRange =>
        exists v, 255 < v <= UINT_MAX /\
                  text os' = text os ++ out_of_range_line v
    end.
Proof.
  assert (Hout : forall os byte,
    text (put_str (put_uint (set_ohex (os << "Out of range [0, 0xff]: ")) byte) nl)
    = text os ++ out_of_range_line byte).
  { intros os byte. unfold out_of_range_line, put_uint, put_str, set_ohex, fmt_uint.
    cbn [text ohex]. now rewrite !append_assoc. }
  induction fuel as [|fuel IH]; intros ist os bytes ist' os' bytes' e;
    rewrite read_bytes_eq;
    destruct (extract_uint (set_ihex ist)) as [ist1 byte] eqn:E;
    destruct (fail ist1) eqn:F; try (intros H; pinv H; reflexivity);
    destruct (byte >? 255) eqn:B; try (intros H; pinv H; reflexivity);
    try (intros H; pinv H; exists byte;
         apply extract_uint_range in E; [|assumption];
         split; [lia | apply Hout]).
  apply IH.
Qed.

(** What the loop does to the stream and the vector does not depend on the
    output stream. *)
Lemma read_bytes_any_output (fuel : nat) :
  forall ist os os2 bytes ist' os' bytes' e,
    read_bytes fuel ist os bytes = (ist', os', bytes', e) ->
    exists os2', read_bytes fuel ist os2 bytes = (ist', os2', bytes', e).
Proof.
  induction fuel as [|fuel IH]; intros ist os os2 bytes ist' os' bytes' e;
    rewrite !read_bytes_eq;
    destruct (extract_uint (set_ihex ist)) as [ist1 byte] eqn:E;
    destruct (fail ist1) eqn:F; try (intros H; pinv H; eexists; reflexivity);
    destruct (byte >? 255) eqn:B; try (intros H; pinv H; eexists; reflexivity).
  apply IH.
Qed.

(** The base of the stream is 16 from the first turn of the loop on. *)
Lemma read_bytes_ihex (fuel : nat) :
  forall ist os bytes ist' os' bytes' e,
    read_bytes fuel ist os bytes = (ist', os', bytes', e) ->
    ihex ist' = true.
Proof.
  induction fuel as [|fuel IH]; intros ist os bytes ist' os' bytes' e;
    rewrite read_bytes_eq;
    destruct (extract_uint (set_ihex ist)) as [ist1 byte] eqn:E;
    apply extract_uint_ihex in E; simpl in E;
    destruct (fail ist1); try (intros H; pinv H; assumption);
    destruct (byte >? 255); try (intros H; pinv H; assumption).
  apply IH.
Qed.

(** ** Properties of [expect] *)

Lemma skipws_app (ws : string) (c : ascii) (r : string) :
  all_space ws = true -> isspace c = false ->
  skipws (ws ++ String c r) = String c r.
Proof.
  induction ws as [|w ws IH]; simpl; intros Hws Hc.
  - now rewrite Hc.
  - apply andb_prop in Hws. destruct Hws as [Hw Hws].
    rewrite Hw. now apply IH.
Qed.

(** [expect] is the loop of the source over [get]: one turn of it. *)
Lemma expect_eq (ist : wistream) (delim : ascii) :
  expect ist delim =
    match get ist with
    | (ist1, Some ch) =>
        if Ascii.eqb ch delim then ist1
        else if negb (isspace ch) then clear ist1 false true
        else expect ist1 delim
    | (ist1, None) => ist1
    end.
Proof.
  unfold expect, get. destruct (negb (good ist)) eqn:G; [reflexivity|].
  destruct (rdbuf ist) as [|ch r]; [reflexivity|]. simpl.
  destruct (Ascii.eqb ch delim); [reflexivity|].
  destruct (negb (isspace ch)); reflexivity.
Qed.

Lemma expect_scan_state (b : string) (hex : bool) (delim : ascii) :
  fail (expect_scan b hex delim) = false ->
  eofbit (expect_scan b hex delim) = false /\
  ihex (expect_scan b hex delim) = hex.
Proof.
  induction b as [|ch r IH]; simpl; [discriminate|].
  destruct (Ascii.eqb ch delim); [intros _; split; reflexivity|].
  destruct (negb (isspace ch)); [discriminate|]. exact IH.
Qed.

(** After a successful [expect] the stream is good. *)
Lemma expect_state (ist : wistream) (delim : ascii) :
  fail (expect ist delim) = false ->
  eofbit (expect ist delim) = false /\ ihex (expect ist delim) = ihex ist.
Proof.
  unfold expect. destruct (negb (good ist)); [discriminate|].
  apply expect_scan_state.
Qed.

Lemma expect_scan_found (ws : string) (hex : bool) (delim : ascii) (r : string) :
  all_space ws = true -> isspace delim = false ->
  expect_scan (ws ++ String delim r) hex delim =
    {| rdbuf := r; eofbit := false; failbit := false; ihex := hex |}.
Proof.
  induction ws as [|w ws IH]; simpl; intros Hws Hd.
  - now rewrite Ascii.eqb_refl.
  - apply andb_prop in Hws. destruct Hws as [Hw Hws].
    destruct (Ascii.eqb_spec w delim) as [->|_]; [congruence|].
    rewrite Hw. simpl. now apply IH.
Qed.

(** ** The byte-buffer operator *)

Arguments read_bytes : simpl never.

(** A successful parse writes nothing, gives a vector that is not empty and
    leaves a good stream in base 16. *)
Lemma operator_in_bytes_ok (ist : wistream) (os : wostream) :
  forall ist' os' bytes,
    operator_in_bytes ist os = (ist', os', bytes) ->
    fail ist' = false ->
    os' = os /\ bytes <> [] /\ eofbit ist' = false /\ ihex ist' = true.
Proof.
  intros ist' os' bytes. unfold operator_in_bytes.
  destruct (fail (expect ist "{")) eqn:F0; [intros H; pinv H; congruence|].
  destruct (read_bytes _ _ os []) as [[[ist1 os1] bs] e] eqn:R.
  pose proof (read_bytes_output _ _ _ _ _ _ _ _ R) as Hout.
  pose proof (read_bytes_ihex _ _ _ _ _ _ _ _ R) as Hhex.
  destruct e.
  - subst os1. destruct (is_nil bs) eqn:N; [intros H; pinv H; discriminate|].
    destruct (fail (expect (clear ist1 false false) "}")) eqn:F2;
      [intros H; pinv H; congruence|].
    intros H _; pinv H. apply expect_state in F2. destruct F2 as [F2 F3].
    repeat split; try assumption.
    + intros ->. discriminate.
    + rewrite F3. exact Hhex.
  - intros H; pinv H.
    apply (read_bytes_fail _ _ _ _ _ _ _ _ (Nat.le_refl _)) in R. congruence.
Qed.

(** A failed parse has written exactly one diagnostic line. *)
Lemma operator_in_bytes_failed (ist : wistream) (os : wostream) :
  forall ist' os' bytes,
    operator_in_bytes ist os = (ist', os', bytes) ->
    fail ist' = true ->
    exists line, diagnostic line /\ text os' = text os ++ line.
Proof.
  intros ist' os' bytes. unfold operator_in_bytes, diagnostic.
  destruct (fail (expect ist "{")) eqn:F0.
  { intros H _; pinv H. eexists; split; [left; reflexivity|reflexivity]. }
  destruct (read_bytes _ _ os []) as [[[ist1 os1] bs] e] eqn:R.
  apply read_bytes_output in R. destruct e.
  - subst os1. destruct (is_nil bs) eqn:N.
    { intros H _; pinv H.
      eexists; split; [right; left; reflexivity|reflexivity]. }
    destruct (fail (expect (clear ist1 false false) "}")) eqn:F2;
      intros H; pinv H; [intros _|congruence].
    eexists; split; [right; right; left; reflexivity|reflexivity].
  - destruct R as [v [Hv Ht]]. intros H _; pinv H.
    eexists; split; [right; right; right; exists v; split; [exact Hv|reflexivity]|].
    exact Ht.
Qed.

(** What a parse does to the stream and the vector does not depend on the
    output stream. *)
Lemma operator_in_bytes_any_output (ist : wistream) (os os2 : wostream) :
  forall ist' os' bytes,
    operator_in_bytes ist os = (ist', os', bytes) ->
    exists os2', operator_in_bytes ist os2 = (ist', os2', bytes).
Proof.
  intros ist' os' bytes. unfold operator_in_bytes.
  destruct (fail (expect ist "{")) eqn:F0;
    [intros H; pinv H; eexists; reflexivity|].
  destruct (read_bytes _ _ os []) as [[[ist1 os1] bs] e] eqn:R.
  apply (read_bytes_any_output _ _ _ os2) in R. destruct R as [os2' ->].
  destruct e.
  - destruct (is_nil bs); [intros H; pinv H; eexists; reflexivity|].
    destruct (fail (expect (clear ist1 false false) "}"));
      intros H; pinv H; eexists; reflexivity.
  - intros H; pinv H; eexists; reflexivity.
Qed.

(** ** Claims on the byte-buffer operator *)

(** C9, as the program has it: the byte-buffer operator does write to the
    output stream.  A parse that succeeds leaves the output as it was; a
    parse that fails has appended exactly one diagnostic line (missing
    opening brace, zero-length buffer, missing closing brace, or the number
    that is out of range) before it signals the failure through
    [failbit]; the caller -- the [write] or the [writeread] branch -- then
    prints its usage line after the diagnostic, makes no transfer and goes
    on with the next line. *)
Theorem operator_in_bytes_prints_its_diagnostic :
  forall (D : Type) (device : I2cDevice D) (ist : wistream) (os : wostream)
         (d : D),
    let '(ist', os', bytes) := operator_in_bytes ist os in
    if fail ist' then
      exists line,
        diagnostic line /\ text os' = text os ++ line /\
        do_write device ist d os
        = (Next, d, os' << "Usage: write { 55 a0 ... ff }" ++ nl) /\
        do_writeread device ist d os
        = (Next, d, os' << "Usage: writeread { 55 a0 ... ff } 4" ++ nl)
    else os' = os.
Proof.
  intros D device ist os d.
  destruct (operator_in_bytes ist os) as [[ist' os'] bytes] eqn:E.
  destruct (fail ist') eqn:F.
  - destruct (operator_in_bytes_failed ist os ist' os' bytes E F)
      as (line & Hd & Ht).
    exists line. split; [exact Hd|]. split; [exact Ht|].
    unfold do_write, do_writeread. rewrite E, F. split; reflexivity.
  - eapply operator_in_bytes_ok; eauto.
Qed.

(** C9 fails as stated: on an empty buffer the operator itself writes
    "Zero-length buffers are not allowed" to the output stream. *)
Lemma operator_in_bytes_writes_output :
  let '(ist', os', bytes) :=
    operator_in_bytes (wistringstream "{}") cout_init in
  fail ist' = true /\
  text os' = "Zero-length buffers are not allowed" ++ nl /\
  text os' <> text cout_init.
Proof. vm_compute. repeat split. discriminate. Qed.

(** C5: a buffer with no number between its braces is refused.  Whatever
    white space stands before the opening brace and between the braces
    (none at all included), and whatever follows the closing brace, the
    operator writes "Zero-length buffers are not allowed", sets [failbit]
    and leaves the vector empty.  And no input at all makes the operator
    succeed with an empty vector. *)
Theorem zero_length_buffer_rejected :
  forall (ws1 ws2 rest : string) (hex : bool) (os : wostream),
    all_space ws1 = true ->
    all_space ws2 = true ->
    operator_in_bytes
      {| rdbuf := ws1 ++ "{" ++ ws2 ++ "}" ++ rest;
         eofbit := false; failbit := false; ihex := hex |} os
    = ({| rdbuf := "}" ++ rest; eofbit := false; failbit := true;
          ihex := true |},
       os << "Zero-length buffers are not allowed" ++ nl,
       []) /\
    (forall ist os0,
       let '(ist', _, bytes) := operator_in_bytes ist os0 in
       fail ist' = false -> bytes <> []).
Proof.
  intros ws1 ws2 rest hex os H1 H2. split.
  - unfold operator_in_bytes, expect. cbn [good eofbit failbit negb andb rdbuf ihex].
    change ("{" ++ ws2 ++ "}" ++ rest) with (String "{" (ws2 ++ "}" ++ rest)).
    rewrite expect_scan_found by (assumption || reflexivity).
    cbn [fail failbit rdbuf]. rewrite read_bytes_eq.
    unfold extract_uint.
    cbn [good set_ihex eofbit failbit negb andb rdbuf ihex].
    change ("}" ++ rest) with (String "}" rest).
    rewrite skipws_app by (assumption || reflexivity).
    destruct rest; reflexivity.
  - intros ist os0.
    destruct (operator_in_bytes ist os0) as [[ist' os'] bytes] eqn:E.
    intros F. eapply operator_in_bytes_ok; eauto.
Qed.

(** The buffer [{ }]. *)
Lemma zero_length_buffer_rejected_witness :
  all_space "" = true /\ all_space " " = true /\
  operator_in_bytes (wistringstream "{ }") cout_init
  = ({| rdbuf := "}"; eofbit := false; failbit := true; ihex := true |},
     cout_init << "Zero-length buffers are not allowed" ++ nl, []).
Proof.
  split; [reflexivity|]. split; [reflexivity|].
  exact (proj1 (zero_length_buffer_rejected "" " " "" false cout_init
                  eq_refl eq_refl)).
Defined.

(** ** Output of bytes *)

Lemma BYTE_value_range (b : BYTE) : 0 <= BYTE_value b < 256.
Proof.
  unfold BYTE_value. pose proof (Byte.to_N_bounded b) as H. lia.
Qed.

Lemma fmt_int_byte (b : BYTE) :
  fmt_int true (BYTE_value b) = hex_string (BYTE_value b).
Proof.
  unfold fmt_int. rewrite Z.mod_small; [reflexivity|].
  pose proof (BYTE_value_range b). unfold UINT_MAX. lia.
Qed.

Lemma operator_out_bytes_text (bytes : list BYTE) :
  forall os, text (operator_out_bytes os bytes) = text os ++ render_bytes bytes.
Proof.
  induction bytes as [|b rest IH]; intros os; simpl.
  - now rewrite append_nil_r.
  - rewrite IH. unfold put_int, put_str, set_ohex. cbn [text ohex].
    rewrite fmt_int_byte. now rewrite !append_assoc.
Qed.

Lemma length_new_Array (n : Z) : List.length (new_Array n) = Z.to_nat n.
Proof. apply repeat_length. Qed.

(** The device cannot change the size of the array. *)
Lemma length_store (buf data : list BYTE) :
  List.length (store buf data) = List.length buf.
Proof.
  unfold store. rewrite length_app, length_firstn, length_skipn.
  destruct (Nat.le_ge_cases (List.length buf) (List.length data)) as [H|H].
  - rewrite Nat.min_l by exact H. lia.
  - rewrite Nat.min_r by exact H. lia.
Qed.

Lemma byte_digits (b : BYTE) :
  String.length (hex_string (BYTE_value b))
  = (if BYTE_value b <? 16 then 1%nat else 2%nat) /\
  lowercase_hex (hex_string (BYTE_value b)) = true /\
  scan_digits true (hex_string (BYTE_value b)) 0 false
  = (BYTE_value b, true, "").
Proof. destruct b; vm_compute; repeat split. Qed.

(** C4, as the program has it: an array is printed byte by byte, each byte
    as one space followed by its value in lowercase hexadecimal digits --
    one digit below [0x10], two from there on, never a leading zero or a
    "0x" -- so that a line of bytes starts with a space; reading the digits
    back in base 16 gives the byte.  For a full transfer of a read or of a
    write-read the program prints the whole read buffer this way and ends
    the line, whatever the device and the count of the answer are. *)
Theorem bytes_printed_without_padding :
  forall (os : wostream) (bytes : list BYTE),
    text (operator_out_bytes os bytes) = text os ++ render_bytes bytes /\
    (forall b : BYTE,
       String.length (hex_string (BYTE_value b))
       = (if BYTE_value b <? 16 then 1%nat else 2%nat) /\
       lowercase_hex (hex_string (BYTE_value b)) = true /\
       scan_digits true (hex_string (BYTE_value b)) 0 false
       = (BYTE_value b, true, "")) /\
    (forall (transferred n : Z) (data : list BYTE) (log : list request),
       text (snd (transfer_read
                    (sim_device (mk_result FullTransfer transferred) data)
                    n log os))
       = text os ++ render_bytes (store (new_Array n) data) ++ nl) /\
    (forall (transferred n : Z) (writeBuf data : list BYTE)
            (log : list request),
       text (snd (transfer_writeread
                    (sim_device (mk_result FullTransfer transferred) data)
                    writeBuf n log os))
       = text os ++ render_bytes (store (new_Array n) data) ++ nl) /\
    (forall (D : Type) (device : I2cDevice D) (req : request) (d d' : D)
            (result : I2cTransferResult) (readBuf : list BYTE),
       answer device req d = (Returned (result, readBuf), d') ->
       Status result = FullTransfer ->
       (forall writeBuf, req <> ReqWrite writeBuf) ->
       fst (perform device req d os) = (Next, d') /\
       text (snd (perform device req d os))
       = text os ++ render_bytes readBuf ++ nl).
Proof.
  intros os bytes. split; [apply operator_out_bytes_text|].
  split; [apply byte_digits|].
  split.
  { intros transferred n data log. unfold transfer_read. cbn.
    rewrite operator_out_bytes_text. now rewrite append_assoc. }
  split.
  { intros transferred n writeBuf data log. unfold transfer_writeread. cbn.
    rewrite operator_out_bytes_text. now rewrite append_assoc. }
  intros D device req d d' result readBuf Hans Hst Hreq.
  destruct req as [writeBuf|n|writeBuf n];
    [now destruct (Hreq writeBuf)| |];
    unfold perform, transfer_read, transfer_writeread; unfold answer in Hans.
  - destruct (ReadPartial device d (new_Array n)) as [[[r data]|m] d2];
      pinv Hans; [|discriminate].
    apply Returned_inj in Hans. pinv Hans. rewrite Hst.
    split; [reflexivity|]. cbn [snd put_str text].
    now rewrite operator_out_bytes_text, append_assoc.
  - destruct (WriteReadPartial device d writeBuf (new_Array n))
      as [[[r data]|m] d2]; pinv Hans; [|discriminate].
    apply Returned_inj in Hans. pinv Hans. rewrite Hst.
    split; [reflexivity|]. cbn [snd put_str text].
    now rewrite operator_out_bytes_text, append_assoc.
Qed.

(** C4 fails as stated: for the bytes 0x0a and 0xff the specification's
    format is "0a ff", while the program prints " a ff" and ends the
    line. *)
Lemma full_transfer_output_not_two_digits :
  spec_format [x0a; xff] = "0a ff" /\
  text (snd (ShowPrompt_line (sim_device (mk_result FullTransfer 2) [x0a; xff])
               "read 2" [] cout_init))
  = " a ff" ++ nl /\
  text (operator_out_bytes cout_init [x0a; xff]) <> spec_format [x0a; xff].
Proof. vm_compute. repeat split. discriminate. Qed.

(** ** From a line to its transfer *)

Arguments operator_in_bytes : simpl never.

Lemma parse_request_range (line : string) (req : request) :
  parse_request line = Some req -> 0 <= request_count req <= UINT_MAX.
Proof.
  unfold parse_request.
  destruct (extract_word (wistringstream line)) as [ls command].
  destruct (command =? "write")%string.
  { destruct (operator_in_bytes ls cout_init) as [[ls1 os1] wb].
    destruct (fail ls1); [discriminate|].
    intros H. injection H as <-. simpl. unfold UINT_MAX. lia. }
  destruct (command =? "read")%string.
  { destruct (extract_uint ls) as [ls1 n] eqn:E.
    destruct (fail ls1) eqn:F; [discriminate|].
    intros H. injection H as <-. simpl. eapply extract_uint_range; eauto. }
  destruct (command =? "writeread")%string; [|discriminate].
  destruct (operator_in_bytes ls cout_init) as [[ls1 os1] wb].
  destruct (fail ls1); [discriminate|].
  destruct (extract_uint ls1) as [ls2 n] eqn:E.
  destruct (fail ls2) eqn:F; [discriminate|].
  intros H. injection H as <-. simpl. eapply extract_uint_range; eauto.
Qed.

(** A write buffer that was parsed is not empty. *)
Lemma parse_request_buffer (line : string) (req : request) :
  parse_request line = Some req ->
  match req with
  | ReqWrite writeBuf | ReqWriteRead writeBuf _ => writeBuf <> []
  | ReqRead _ => True
  end.
Proof.
  unfold parse_request.
  destruct (extract_word (wistringstream line)) as [ls command].
  destruct (command =? "write")%string.
  { destruct (operator_in_bytes ls cout_init) as [[ls1 os1] wb] eqn:P.
    destruct (fail ls1) eqn:F; [discriminate|].
    intros H. injection H as <-. eapply operator_in_bytes_ok; eauto. }
  destruct (command =? "read")%string.
  { destruct (extract_uint ls) as [ls1 n] eqn:E.
    destruct (fail ls1) eqn:F; [discriminate|].
    intros H. injection H as <-. exact I. }
  destruct (command =? "writeread")%string; [|discriminate].
  destruct (operator_in_bytes ls cout_init) as [[ls1 os1] wb] eqn:P.
  destruct (fail ls1) eqn:F1; [discriminate|].
  destruct (extract_uint ls1) as [ls2 n] eqn:E.
  destruct (fail ls2) eqn:F; [discriminate|].
  intros H. injection H as <-. eapply operator_in_bytes_ok; eauto.
Qed.

Section Lines.

Context {D : Type}.
Variable device : I2cDevice D.

(** A line with a request is answered by the call of this request and
    its [switch], and by nothing else. *)
Lemma ShowPrompt_line_perform (line : string) (req : request) (d : D)
  (wcout : wostream) :
  parse_request line = Some req ->
  ShowPrompt_line device line d wcout = perform device req d wcout.
Proof.
  unfold parse_request, ShowPrompt_line.
  destruct (extract_word (wistringstream line)) as [ls command].
  destruct (command =? "write")%string eqn:Ew.
  { apply String.eqb_eq in Ew. subst command.
    cbv beta iota delta [String.eqb Ascii.eqb Bool.eqb orb].
    destruct (operator_in_bytes ls cout_init) as [[ls1 os1] wb] eqn:P.
    destruct (operator_in_bytes_any_output _ _ wcout _ _ _ P) as [os2 P2].
    unfold do_write. rewrite P2.
    destruct (fail ls1) eqn:F; [discriminate|].
    intros H. injection H as <-.
    apply operator_in_bytes_ok in P2; [|assumption].
    destruct P2 as [-> _]. reflexivity. }
  destruct (command =? "read")%string eqn:Er.
  { apply String.eqb_eq in Er. subst command.
    cbv beta iota delta [String.eqb Ascii.eqb Bool.eqb orb].
    unfold do_read.
    destruct (extract_uint ls) as [ls1 n].
    destruct (fail ls1); [discriminate|].
    intros H. injection H as <-. reflexivity. }
  destruct (command =? "writeread")%string eqn:Ewr; [|discriminate].
  apply String.eqb_eq in Ewr. subst command.
  cbv beta iota delta [String.eqb Ascii.eqb Bool.eqb orb].
  destruct (operator_in_bytes ls cout_init) as [[ls1 os1] wb] eqn:P.
  destruct (operator_in_bytes_any_output _ _ wcout _ _ _ P) as [os2 P2].
  unfold do_writeread. rewrite P2.
  destruct (fail ls1) eqn:F; [discriminate|].
  destruct (extract_uint ls1) as [ls2 n].
  destruct (fail ls2); [discriminate|].
  intros H. injection H as <-.
  apply operator_in_bytes_ok in P2; [|assumption].
  destruct P2 as [-> _]. reflexivity.
Qed.

End Lines.

(** ** Claims on the transfers *)

(** A difference that fits an [int] is not changed by the conversion. *)
Lemma to_int32_small (x : Z) :
  - 2147483648 <= x < 2147483648 -> to_int32 x = x.
Proof.
  intros [Hlo Hhi]. unfold to_int32, UINT_MAX.
  change (4294967295 + 1) with 4294967296.
  destruct (Z.lt_ge_cases x 0) as [Hneg|Hpos].
  - rewrite <- (Z.mod_add x 1 4294967296) by discriminate.
    rewrite Z.mod_small by lia.
    destruct (Z.ltb_spec (x + 1 * 4294967296) 2147483648); lia.
  - rewrite Z.mod_small by lia.
    destruct (Z.ltb_spec x 2147483648); lia.
Qed.

(** The conversion gives an [int], equal to its argument modulo [2^32]. *)
Lemma to_int32_range (x : Z) : - 2147483648 <= to_int32 x < 2147483648.
Proof.
  unfold to_int32, UINT_MAX. change (4294967295 + 1) with 4294967296.
  pose proof (Z.mod_pos_bound x 4294967296 eq_refl) as Hm.
  destruct (Z.ltb_spec (x mod 4294967296) 2147483648); lia.
Qed.

Lemma to_int32_congruent (x : Z) :
  exists k : Z, to_int32 x = x + k * 4294967296.
Proof.
  unfold to_int32, UINT_MAX. change (4294967295 + 1) with 4294967296.
  pose proof (Z.div_mod x 4294967296) as Hd.
  assert (He : x = 4294967296 * (x / 4294967296) + x mod 4294967296)
    by (apply Hd; discriminate).
  destruct (x mod 4294967296 <? 2147483648).
  - exists (- (x / 4294967296)). lia.
  - exists (- (x / 4294967296) - 1). lia.
Qed.

(** C2: whichever of the three transfers a line asks for, when the device
    answers [SlaveAddressNotAcknowledged] the program prints the line
    "Slave address was not acknowledged" and nothing else -- no byte of the
    read buffer, whatever the byte count and the buffer of the answer
    are -- and goes on with the next line. *)
Theorem not_acknowledged_prints_fixed_message :
  forall (D : Type) (device : I2cDevice D) (line : string) (req : request)
         (d d' : D) (wcout : wostream) (result : I2cTransferResult)
         (readBuf : list BYTE),
    parse_request line = Some req ->
    answer device req d = (Returned (result, readBuf), d') ->
    Status result = SlaveAddressNotAcknowledged ->
    ShowPrompt_line device line d wcout
    = (Next, d', wcout << not_acknowledged_line).
Proof.
  intros D device line req d d' wcout result readBuf Hreq Hans Hst.
  rewrite (ShowPrompt_line_perform device line req d wcout Hreq).
  destruct req as [writeBuf|n|writeBuf n];
    unfold perform, transfer_write, transfer_read, transfer_writeread;
    unfold answer in Hans.
  - destruct (WritePartial device d writeBuf) as [[r|m] d2];
      pinv Hans; [|discriminate].
    apply Returned_inj in Hans. pinv Hans. rewrite Hst. reflexivity.
  - destruct (ReadPartial device d (new_Array n)) as [[[r data]|m] d2];
      pinv Hans; [|discriminate].
    apply Returned_inj in Hans. pinv Hans. rewrite Hst. reflexivity.
  - destruct (WriteReadPartial device d writeBuf (new_Array n))
      as [[[r data]|m] d2]; pinv Hans; [|discriminate].
    apply Returned_inj in Hans. pinv Hans. rewrite Hst. reflexivity.
Qed.

(** A write-read that is not acknowledged, with a byte count and bytes in
    the answer. *)
Lemma not_acknowledged_prints_fixed_message_witness :
  ShowPrompt_line
    (sim_device (mk_result SlaveAddressNotAcknowledged 3) [x11; x22])
    "writeread { 1 2 } 4" [] cout_init
  = (Next, [ReqWriteRead [x01; x02] 4], cout_init << not_acknowledged_line).
Proof.
  apply (not_acknowledged_prints_fixed_message (list request)
           (sim_device (mk_result SlaveAddressNotAcknowledged 3) [x11; x22])
           "writeread { 1 2 } 4" (ReqWriteRead [x01; x02] 4) []
           [ReqWriteRead [x01; x02] 4] cout_init
           (mk_result SlaveAddressNotAcknowledged 3)
           [x11; x22; x00; x00]).
  - vm_compute. reflexivity.
  - vm_compute. reflexivity.
  - reflexivity.
Defined.

(** C1, as the program has it: for a write-read transfer that ends in
    [PartialTransfer] the program takes the transferred count minus the
    length of the write buffer and converts it to an [int] -- the
    difference modulo [2^32], as a number from [-2^31] up to [2^31 - 1],
    which is the difference itself when that fits.  When this [int] is
    positive the program prints the whole read buffer -- all the bytes that
    were asked for, not only as many as the difference -- and when it is
    not, no byte at all.  This holds for every transferred count. *)
Theorem writeread_partial_prints_whole_buffer :
  forall (D : Type) (device : I2cDevice D) (line : string)
         (writeBuf : list BYTE) (n : Z) (d d' : D) (wcout : wostream)
         (transferred : Z) (readBuf : list BYTE),
    parse_request line = Some (ReqWriteRead writeBuf n) ->
    answer device (ReqWriteRead writeBuf n) d
    = (Returned (mk_result PartialTransfer transferred, readBuf), d') ->
    (exists wcout',
       ShowPrompt_line device line d wcout = (Next, d', wcout') /\
       List.length readBuf = Z.to_nat n /\
       text wcout'
       = text wcout ++ partial_transfer_line (ohex wcout) transferred ++
         (if to_int32 (transferred - Z.of_nat (List.length writeBuf)) >? 0
          then render_bytes readBuf ++ nl else "")) /\
    - 2147483648
      <= to_int32 (transferred - Z.of_nat (List.length writeBuf))
      < 2147483648 /\
    (exists k : Z,
       to_int32 (transferred - Z.of_nat (List.length writeBuf))
       = transferred - Z.of_nat (List.length writeBuf) + k * 4294967296) /\
    (- 2147483648
     <= transferred - Z.of_nat (List.length writeBuf) < 2147483648 ->
     to_int32 (transferred - Z.of_nat (List.length writeBuf))
     = transferred - Z.of_nat (List.length writeBuf)).
Proof.
  intros D device line writeBuf n d d' wcout transferred readBuf Hreq Hans.
  split; [|split; [apply to_int32_range|
                   split; [apply to_int32_congruent|apply to_int32_small]]].
  rewrite (ShowPrompt_line_perform device line _ d wcout Hreq).
  unfold perform, transfer_writeread. unfold answer in Hans.
  destruct (WriteReadPartial device d writeBuf (new_Array n))
    as [[[r data]|m] d2]; pinv Hans; [|discriminate].
  apply Returned_inj in Hans. pinv Hans. cbn [Status BytesTransferred].
  destruct (to_int32 (transferred - Z.of_nat (List.length writeBuf)) >? 0);
    eexists; (split; [reflexivity|]);
    (split; [now rewrite length_store, length_new_Array|]).
  - unfold put_str at 1. cbn [text]. rewrite operator_out_bytes_text.
    unfold partial_transfer_line, put_uint, put_str. cbn [text ohex].
    now rewrite !append_assoc.
  - unfold partial_transfer_line, put_uint, put_str. cbn [text ohex].
    now rewrite !append_assoc, append_nil_r.
Qed.

(** Three bytes written and four to read: with five transferred the
    difference is 2 and the four bytes of the read buffer are printed; with
    4294967295 transferred the difference is -4 as an [int] and no byte is
    printed. *)
Lemma writeread_partial_prints_whole_buffer_witness :
  (exists wcout',
     ShowPrompt_line (sim_device (mk_result PartialTransfer 5) [x11; x22])
       "writeread { 1 2 3 } 4" [] cout_init
     = (Next, [ReqWriteRead [x01; x02; x03] 4], wcout') /\
     List.length [x11; x22; x00; x00] = Z.to_nat 4 /\
     text wcout'
     = text cout_init ++ partial_transfer_line false 5 ++
       render_bytes [x11; x22; x00; x00] ++ nl) /\
  (exists wcout',
     ShowPrompt_line
       (sim_device (mk_result PartialTransfer 4294967295) [x11; x22])
       "writeread { 1 2 3 } 4" [] cout_init
     = (Next, [ReqWriteRead [x01; x02; x03] 4], wcout') /\
     List.length [x11; x22; x00; x00] = Z.to_nat 4 /\
     text wcout'
     = text cout_init ++ partial_transfer_line false 4294967295 ++ "") /\
  to_int32 (4294967295 - Z.of_nat (List.length [x01; x02; x03])) = - 4.
Proof.
  split; [|split].
  - apply (proj1 (writeread_partial_prints_whole_buffer (list request)
             (sim_device (mk_result PartialTransfer 5) [x11; x22])
             "writeread { 1 2 3 } 4" [x01; x02; x03] 4 []
             [ReqWriteRead [x01; x02; x03] 4] cout_init 5
             [x11; x22; x00; x00] eq_refl eq_refl)).
  - apply (proj1 (writeread_partial_prints_whole_buffer (list request)
             (sim_device (mk_result PartialTransfer 4294967295) [x11; x22])
             "writeread { 1 2 3 } 4" [x01; x02; x03] 4 []
             [ReqWriteRead [x01; x02; x03] 4] cout_init 4294967295
             [x11; x22; x00; x00] eq_refl eq_refl)).
  - reflexivity.
Defined.

(** C1 fails as stated: with a write buffer of 3 bytes, 4 bytes to read and
    a transferred count of 5, the bytes of the read phase are 2 by the
    specification, and the program prints all 4 bytes of the read
    buffer. *)
Lemma writeread_partial_prints_more_than_captured :
  spec_dataRead 5 [x01; x02; x03] (store (new_Array 4) [x11; x22])
  = [x11; x22] /\
  text (snd (ShowPrompt_line
               (sim_device (mk_result PartialTransfer 5) [x11; x22])
               "writeread { 1 2 3 } 4" [] cout_init))
  = partial_transfer_line false 5 ++ " 11 22 0 0" ++ nl /\
  text (snd (ShowPrompt_line
               (sim_device (mk_result PartialTransfer 5) [x11; x22])
               "writeread { 1 2 3 } 4" [] cout_init))
  <> partial_transfer_line false 5 ++
     render_bytes
       (spec_dataRead 5 [x01; x02; x03] (store (new_Array 4) [x11; x22]))
     ++ nl.
Proof. vm_compute. repeat split. discriminate. Qed.

(** C3, as the program has it: for a read that ends in [PartialTransfer]
    with the count [n], and with the output stream in base 10 as it is when
    the session starts, the program prints "Partial Transfer. Transferred
    n bytes" and on the next line the whole read buffer -- every byte that
    was asked for, captured or not -- each byte after a space, in
    hexadecimal without padding. *)
Theorem read_partial_prints_whole_buffer :
  forall (D : Type) (device : I2cDevice D) (line : string) (n : Z)
         (d d' : D) (wcout : wostream) (transferred : Z)
         (readBuf : list BYTE),
    parse_request line = Some (ReqRead n) ->
    answer device (ReqRead n) d
    = (Returned (mk_result PartialTransfer transferred, readBuf), d') ->
    ohex wcout = false ->
    exists wcout',
      ShowPrompt_line device line d wcout = (Next, d', wcout') /\
      List.length readBuf = Z.to_nat n /\
      text wcout'
      = text wcout ++ "Partial Transfer. Transferred " ++
        dec_string transferred ++ " bytes" ++ nl ++
        render_bytes readBuf ++ nl.
Proof.
  intros D device line n d d' wcout transferred readBuf Hreq Hans Hdec.
  rewrite (ShowPrompt_line_perform device line _ d wcout Hreq).
  unfold perform, transfer_read. unfold answer in Hans.
  destruct (ReadPartial device d (new_Array n)) as [[[r data]|m] d2];
    pinv Hans; [|discriminate].
  apply Returned_inj in Hans. pinv Hans. cbn [Status BytesTransferred].
  eexists. split; [reflexivity|].
  split; [now rewrite length_store, length_new_Array|].
  unfold put_str at 1. cbn [text]. rewrite operator_out_bytes_text.
  unfold put_uint, put_str, fmt_uint. cbn [text ohex]. rewrite Hdec.
  now rewrite !append_assoc.
Qed.

(** Four bytes to read, two transferred. *)
Lemma read_partial_prints_whole_buffer_witness :
  exists wcout',
    ShowPrompt_line (sim_device (mk_result PartialTransfer 2) [x11; x22])
      "read 4" [] cout_init
    = (Next, [ReqRead 4], wcout') /\
    List.length [x11; x22; x00; x00] = Z.to_nat 4 /\
    text wcout'
    = text cout_init ++ "Partial Transfer. Transferred " ++
      dec_string 2 ++ " bytes" ++ nl ++
      render_bytes [x11; x22; x00; x00] ++ nl.
Proof.
  apply (read_partial_prints_whole_buffer (list request)
           (sim_device (mk_result PartialTransfer 2) [x11; x22])
           "read 4" 4 [] [ReqRead 4] cout_init 2 [x11; x22; x00; x00]).
  - vm_compute. reflexivity.
  - vm_compute. reflexivity.
  - reflexivity.
Defined.

(** C3 fails as stated: for [read 4] and a device that answers
    [PartialTransfer] with the count 2 and the bytes 0x11 and 0x22, the
    program prints the two bytes that were never captured as well, and a
    space before the first byte. *)
Lemma read_partial_prints_more_than_captured :
  text (snd (ShowPrompt_line
               (sim_device (mk_result PartialTransfer 2) [x11; x22])
               "read 4" [] cout_init))
  = "Partial Transfer. Transferred 2 bytes" ++ nl ++ " 11 22 0 0" ++ nl /\
  text (snd (ShowPrompt_line
               (sim_device (mk_result PartialTransfer 2) [x11; x22])
               "read 4" [] cout_init))
  <> "Partial Transfer. Transferred 2 bytes" ++ nl ++ spec_format [x11; x22] /\
  text (snd (ShowPrompt_line
               (sim_device (mk_result PartialTransfer 2) [x11; x22])
               "read 4" [] cout_init))
  <> "Partial Transfer. Transferred 2 bytes" ++ nl ++
     render_bytes [x11; x22] ++ nl.
Proof. vm_compute. repeat split; discriminate. Qed.

(** C8, as the program has it: the number of bytes to read is not
    compared with 0.  Whatever number the line carries -- any [unsigned
    int], 0 included -- the program issues the transfer with this number:
    the simulated device receives exactly the request of the line. *)
Theorem read_length_not_checked :
  forall (line : string) (req : request) (result : I2cTransferResult)
         (data : list BYTE) (log : list request) (wcout : wostream),
    parse_request line = Some req ->
    0 <= request_count req <= UINT_MAX /\
    snd (fst (ShowPrompt_line (sim_device result data) line log wcout))
    = (log ++ [req])%list.
Proof.
  intros line req result data log wcout Hreq.
  pose proof (parse_request_range line req Hreq) as Hrange.
  split; [exact Hrange|].
  rewrite (ShowPrompt_line_perform _ line req log wcout Hreq).
  destruct req as [writeBuf|n|writeBuf n];
    unfold perform, transfer_write, transfer_read, transfer_writeread;
    cbn [sim_device WritePartial ReadPartial WriteReadPartial];
    cbn [request_count] in Hrange.
  - destruct (Status result); reflexivity.
  - rewrite length_new_Array, Z2Nat.id by lia.
    destruct (Status result); reflexivity.
  - rewrite length_new_Array, Z2Nat.id by lia.
    destruct (Status result); try reflexivity.
    destruct (_ >? 0); reflexivity.
Qed.

(** The line [read 0]. *)
Lemma read_length_not_checked_witness :
  0 <= request_count (ReqRead 0) <= UINT_MAX /\
  snd (fst (ShowPrompt_line (sim_device (mk_result FullTransfer 0) [])
              "read 0" [] cout_init))
  = ([] ++ [ReqRead 0])%list.
Proof.
  apply (read_length_not_checked "read 0" (ReqRead 0)
           (mk_result FullTransfer 0) [] [] cout_init).
  vm_compute. reflexivity.
Defined.

(** C8 fails as stated: [read 0] and [writeread { 1 } 0] are carried out,
    with 0 bytes to read. *)
Lemma read_of_zero_bytes_is_issued :
  ShowPrompt_line (sim_device (mk_result FullTransfer 0) []) "read 0" []
    cout_init
  = (Next, [ReqRead 0], cout_init << nl) /\
  ShowPrompt_line (sim_device (mk_result FullTransfer 1) [])
    "writeread { 1 } 0" [] cout_init
  = (Next, [ReqWriteRead [x01] 0], cout_init << nl).
Proof. vm_compute. split; reflexivity. Qed.

(** ** Claims on the byte-buffer operator: numbers out of range *)

(** A number above [0xff] that fits an [unsigned int] ends the loop with the
    out-of-range diagnostic and [failbit]. *)
Lemma read_bytes_out_of_range (fuel : nat) (ist ist1 : wistream)
  (os : wostream) (bytes : list BYTE) (v : Z) :
  extract_uint (set_ihex ist) = (ist1, v) ->
  fail ist1 = false ->
  255 < v ->
  exists os',
    read_bytes fuel ist os bytes = (clear ist1 false true, os', bytes, OutOfRange)
    /\ text os' = text os ++ out_of_range_line v.
Proof.
  intros E F Hv. rewrite read_bytes_eq, E, F.
  destruct (Z.gtb_spec v 255) as [_|H]; [|lia].
  eexists. split; [reflexivity|].
  unfold out_of_range_line, put_uint, put_str, set_ohex, fmt_uint.
  cbn [text ohex]. now rewrite !append_assoc.
Qed.

(** C6: the program does not refuse every number above [0xff].  A number
    that does not fit an [unsigned int] makes the extraction fail after all
    its digits were consumed; the loop ends as it does at the closing
    brace, and the bytes read before are accepted: [write { 1 100000000 }]
    writes the byte 1 to the device and prints nothing.  A number above
    [0xff] that fits is refused, as [write { 1 100 }] shows. *)
Theorem overflowing_number_is_dropped :
  operator_in_bytes (wistringstream "{ 1 100000000 }") cout_init
  = ({| rdbuf := ""; eofbit := false; failbit := false; ihex := true |},
     cout_init, [x01]) /\
  ShowPrompt_line (sim_device (mk_result FullTransfer 1) [])
    "write { 1 100000000 }" [] cout_init
  = (Next, [ReqWrite [x01]], cout_init) /\
  ShowPrompt_line (sim_device (mk_result FullTransfer 1) [])
    "write { 1 100 }" [] cout_init
  = (Next, [],
     {| text := out_of_range_line 256 ++ "Usage: write { 55 a0 ... ff }" ++ nl;
        ohex := true |}).
Proof. vm_compute. repeat split. Qed.

(** ** Lines without a request *)

Lemma parse_request_not_quit (line : string) (req : request) :
  parse_request line = Some req -> quits line = false.
Proof.
  unfold parse_request, quits.
  destruct (extract_word (wistringstream line)) as [ls command]. cbn [snd].
  destruct (command =? "write")%string eqn:E1;
    [apply String.eqb_eq in E1; subst; reflexivity|].
  destruct (command =? "read")%string eqn:E2;
    [apply String.eqb_eq in E2; subst; reflexivity|].
  destruct (command =? "writeread")%string eqn:E3;
    [apply String.eqb_eq in E3; subst; reflexivity|discriminate].
Qed.

Section Untouched.

Context {D : Type}.
Variable device : I2cDevice D.

Lemma perform_flow (req : request) (d : D) (wcout : wostream) :
  fst (fst (perform device req d wcout)) <> Return.
Proof.
  destruct req as [writeBuf|n|writeBuf n];
    unfold perform, transfer_write, transfer_read, transfer_writeread.
  - destruct (WritePartial device d writeBuf) as [[r|m] d'];
      [destruct (Status r)|]; discriminate.
  - destruct (ReadPartial device d (new_Array n)) as [[[r data]|m] d'];
      [destruct (Status r)|]; discriminate.
  - destruct (WriteReadPartial device d writeBuf (new_Array n))
      as [[[r data]|m] d']; [destruct (Status r)|];
      try destruct (_ >? 0); discriminate.
Qed.

(** A line without a request: what becomes of the loop and of the
    device. *)
Lemma ShowPrompt_line_no_request (line : string) (d : D) (wcout : wostream) :
  parse_request line = None ->
  exists wcout',
    ShowPrompt_line device line d wcout
    = (if quits line then Return else Next, d, wcout').
Proof.
  unfold parse_request, ShowPrompt_line, quits.
  destruct (extract_word (wistringstream line)) as [ls command]. cbn [snd].
  destruct (_ || _); [intros _; eexists; reflexivity|].
  destruct (_ || _); [intros _; eexists; reflexivity|].
  destruct (command =? "write")%string.
  { unfold do_write.
    destruct (operator_in_bytes ls cout_init) as [[ls1 os1] wb] eqn:P.
    destruct (operator_in_bytes_any_output _ _ wcout _ _ _ P) as [os2 ->].
    destruct (fail ls1); [|discriminate]. intros _; eexists; reflexivity. }
  destruct (command =? "read")%string.
  { unfold do_read. destruct (extract_uint ls) as [ls1 n].
    destruct (fail ls1); [|discriminate]. intros _; eexists; reflexivity. }
  destruct (command =? "writeread")%string.
  { unfold do_writeread.
    destruct (operator_in_bytes ls cout_init) as [[ls1 os1] wb] eqn:P.
    destruct (operator_in_bytes_any_output _ _ wcout _ _ _ P) as [os2 ->].
    destruct (fail ls1); [intros _; eexists; reflexivity|].
    destruct (extract_uint ls1) as [ls2 n].
    destruct (fail ls2); [|discriminate]. intros _; eexists; reflexivity. }
  destruct (command =? "info")%string; [intros _; eexists; reflexivity|].
  destruct (is_empty command); intros _; eexists; reflexivity.
Qed.

End Untouched.

(** ** The exit code of a session *)

Section Exit.

Context {D : Type}.
Variable device : I2cDevice D.






End Exit.




(** ** Text after a complete command *)

Section Trailing.

(** The text that follows: it starts with a white-space character. *)
Variable c : ascii.
Variable rest : string.
Hypothesis c_space : isspace c = true.

Local Notation "'rlx' s" := (relax c rest s) (at level 10, s at level 9).

Lemma skipws_relax (s : string) :
  skipws s <> "" -> skipws (s ++ String c rest) = skipws s ++ String c rest.
Proof.
  induction s as [|a s IH]; simpl; [congruence|].
  destruct (isspace a); [exact IH|reflexivity].
Qed.

Lemma span_word_relax (s : string) :
  span_word (s ++ String c rest)
  = (fst (span_word s), snd (span_word s) ++ String c rest).
Proof.
  induction s as [|a s IH]; simpl.
  - now rewrite c_space.
  - destruct (isspace a); [reflexivity|].
    rewrite IH. destruct (span_word s) as [w t]. reflexivity.
Qed.

Lemma scan_sign_relax (a : ascii) (b : string) :
  scan_sign (String a (b ++ String c rest))
  = (fst (scan_sign (String a b)), snd (scan_sign (String a b)) ++ String c rest).
Proof.
  simpl. destruct (Ascii.eqb a "-"); [reflexivity|].
  destruct (Ascii.eqb a "+"); reflexivity.
Qed.

Lemma space_not (a : ascii) : isspace a = false -> Ascii.eqb c a = false.
Proof.
  intros Ha. destruct (Ascii.eqb_spec c a) as [->|]; [|reflexivity].
  congruence.
Qed.

Lemma scan_prefix_relax (hex : bool) (b : string) :
  scan_prefix hex (b ++ String c rest) = scan_prefix hex b ++ String c rest.
Proof.
  destruct b as [|c1 [|c2 b]]; simpl.
  - destruct rest as [|c2 r]; [reflexivity|].
    rewrite (space_not "0") by reflexivity.
    now rewrite andb_false_r.
  - rewrite (space_not "x"), (space_not "X") by reflexivity.
    now rewrite andb_false_r.
  - destruct (hex && Ascii.eqb c1 "0" && (Ascii.eqb c2 "x" || Ascii.eqb c2 "X"));
      reflexivity.
Qed.

Lemma scan_digits_relax (hex : bool) (p : string) :
  forall acc seen,
    scan_digits hex (p ++ String c rest) acc seen
    = (fst (scan_digits hex p acc seen),
       snd (scan_digits hex p acc seen) ++ String c rest).
Proof.
  induction p as [|a p IH]; intros acc seen; simpl.
  - now rewrite (isspace_not_digit hex c c_space).
  - destruct (digit_in_base hex a); [apply IH|reflexivity].
Qed.

Lemma is_empty_relax (r : string) : is_empty (r ++ String c rest) = false.
Proof. destruct r; reflexivity. Qed.

(** An extraction that does not run into the end of the input before the
    number starts does the same on the longer line. *)
Lemma extract_uint_relax (s s1 : wistream) (v : Z) :
  good s = true ->
  skipws (rdbuf s) <> "" ->
  extract_uint s = (s1, v) ->
  extract_uint (rlx s) = (rlx s1, v).
Proof.
  intros G Hws. unfold extract_uint, good in *. rewrite G.
  apply andb_prop in G. destruct G as [G1 G2].
  apply negb_true_iff in G2.
  cbn [relax good eofbit failbit rdbuf ihex negb andb]. rewrite G2.
  cbn [negb]. rewrite skipws_relax by assumption.
  destruct (skipws (rdbuf s)) as [|a b]; [congruence|].
  change (String a b ++ String c rest) with (String a (b ++ String c rest)).
  cbv iota. rewrite scan_sign_relax.
  destruct (scan_sign (String a b)) as [neg b1]. cbn [fst snd].
  rewrite scan_prefix_relax, scan_digits_relax.
  destruct (scan_digits (ihex s) (scan_prefix (ihex s) b1) 0 false)
    as [[n seen] r]. cbn [fst snd]. rewrite is_empty_relax.
  destruct (negb seen); [intros H; pinv H; reflexivity|].
  destruct (n >? UINT_MAX); intros H; pinv H; reflexivity.
Qed.

(** After an extraction [eofbit] tells that nothing is left; an extraction
    that only finds white space fails at the end of the input. *)
Lemma extract_uint_eof (s s1 : wistream) (v : Z) :
  good s = true ->
  extract_uint s = (s1, v) ->
  (eofbit s1 = true -> rdbuf s1 = "") /\
  (skipws (rdbuf s) = "" -> rdbuf s1 = "" /\ fail s1 = true).
Proof.
  intros G. unfold extract_uint. rewrite G. cbn [negb].
  destruct (skipws (rdbuf s)) as [|a b];
    [intros H; pinv H; repeat split; reflexivity|].
  destruct (scan_sign (String a b)) as [neg b1].
  destruct (scan_digits (ihex s) (scan_prefix (ihex s) b1) 0 false)
    as [[n seen] r].
  assert (E : is_empty r = true -> r = "")
    by (destruct r; [reflexivity|discriminate]).
  destruct (negb seen); [intros H; pinv H; split; [exact E|discriminate]|].
  destruct (n >? UINT_MAX); intros H; pinv H; (split; [exact E|discriminate]).
Qed.

(** An extraction from a stream that is not good fails and reads
    nothing. *)
Lemma extract_uint_not_good (s s1 : wistream) (v : Z) :
  good s = false ->
  extract_uint s = (s1, v) ->
  rdbuf s1 = rdbuf s /\ fail s1 = true.
Proof.
  intros G. unfold extract_uint. rewrite G. cbn [negb].
  intros H; pinv H. split; reflexivity.
Qed.

Lemma expect_scan_relax (b : string) (hex : bool) (delim : ascii) :
  fail (expect_scan b hex delim) = false ->
  expect_scan (b ++ String c rest) hex delim = rlx (expect_scan b hex delim).
Proof.
  induction b as [|ch r IH]; simpl; [discriminate|].
  destruct (Ascii.eqb ch delim); [reflexivity|].
  destruct (negb (isspace ch)); [discriminate|]. exact IH.
Qed.

Lemma expect_relax (s : wistream) (delim : ascii) :
  fail (expect s delim) = false ->
  expect (rlx s) delim = rlx (expect s delim).
Proof.
  unfold expect. destruct (negb (good s)) eqn:G; [discriminate|].
  apply negb_false_iff in G. unfold good in *.
  apply andb_prop in G. destruct G as [G1 G2]. apply negb_true_iff in G2.
  cbn [relax good eofbit failbit rdbuf ihex negb andb]. rewrite G2.
  cbn [negb]. apply expect_scan_relax.
Qed.

Lemma length_relax (s : wistream) :
  String.length (rdbuf (rlx s)) = S (String.length (rdbuf s) + String.length rest).
Proof. cbn [relax rdbuf]. rewrite length_append. simpl. lia. Qed.

(** The loop on the longer line: when it stops before the end of the
    shorter line, it stops at the same place with the same bytes. *)
Lemma read_bytes_relax (fuel : nat) :
  forall fuel' ist os bytes ist1 os1 bytes1,
    failbit ist = false ->
    (eofbit ist = true -> rdbuf ist = "") ->
    (String.length (rdbuf ist) <= fuel)%nat ->
    (String.length (rdbuf (rlx ist)) <= fuel')%nat ->
    read_bytes fuel ist os bytes = (ist1, os1, bytes1, ReadFailed) ->
    rdbuf ist1 <> "" ->
    read_bytes fuel' (rlx ist) os bytes = (rlx ist1, os1, bytes1, ReadFailed).
Proof.
  induction fuel as [|fuel IH];
    intros fuel' ist os bytes ist1 os1 bytes1 Hf He Hlen Hlen';
    rewrite !read_bytes_eq;
    change (set_ihex (rlx ist)) with (rlx (set_ihex ist));
    destruct (extract_uint (set_ihex ist)) as [ist_a byte] eqn:E;
    (destruct (good (set_ihex ist)) eqn:G;
     [|destruct (extract_uint_not_good _ _ _ G E) as [Hr Hfa];
       rewrite Hfa; intros H Hne; pinv H;
       unfold good in G; cbn [set_ihex eofbit failbit] in G;
       rewrite Hf in G; cbn [negb] in G; rewrite andb_true_r in G;
       apply negb_false_iff in G; apply He in G;
       rewrite Hr in Hne; cbn [set_ihex rdbuf] in Hne; congruence]);
    (destruct (extract_uint_eof _ _ _ G E) as [Heof Hws]);
    (destruct (skipws (rdbuf (set_ihex ist))) as [|a b] eqn:Ews;
     [destruct (Hws eq_refl) as [Hr Hfa]; rewrite Hfa;
      intros H Hne; pinv H; congruence|]);
    (rewrite (extract_uint_relax (set_ihex ist) ist_a byte G) by
        (assumption || (rewrite Ews; discriminate)));
    change (fail (rlx ist_a)) with (fail ist_a);
    (destruct (fail ist_a) eqn:F; [intros H Hne; pinv H; reflexivity|]);
    (destruct (byte >? 255); [intros H; pinv H; discriminate|]);
    pose proof (extract_uint_consumes _ _ _ E F) as Hc;
    rewrite set_ihex_rdbuf in Hc; try lia.
  destruct fuel' as [|fuel']; [rewrite length_relax in Hlen'; lia|].
  apply IH; try assumption; try lia.
  rewrite length_relax in *. lia.
Qed.

(** A parse that succeeds succeeds on the longer line, with the same
    bytes. *)
Lemma operator_in_bytes_relax (s s1 : wistream) (os os1 : wostream)
  (bytes : list BYTE) :
  operator_in_bytes s os = (s1, os1, bytes) ->
  fail s1 = false ->
  operator_in_bytes (rlx s) os = (rlx s1, os1, bytes).
Proof.
  unfold operator_in_bytes.
  destruct (fail (expect s "{")) eqn:F0; [intros H; pinv H; congruence|].
  rewrite (expect_relax _ _ F0).
  change (fail (rlx (expect s "{"))) with (fail (expect s "{")). rewrite F0.
  destruct (read_bytes (String.length (rdbuf (expect s "{"))) (expect s "{") os [])
    as [[[ist1 os1'] bs] e] eqn:R.
  destruct e.
  2:{ intros H; pinv H.
      apply (read_bytes_fail _ _ _ _ _ _ _ _ (Nat.le_refl _)) in R. congruence. }
  destruct (is_nil bs) eqn:N; [intros H; pinv H; discriminate|].
  destruct (fail (expect (clear ist1 false false) "}")) eqn:F2;
    [intros H; pinv H; congruence|].
  intros H _; pinv H.
  assert (Hne : rdbuf ist1 <> "").
  { intros Hr. revert F2. unfold expect, good. cbn [clear eofbit failbit negb andb rdbuf].
    rewrite Hr. discriminate. }
  destruct (expect_state _ _ F0) as [E0 _].
  assert (He : eofbit (expect s "{") = true -> rdbuf (expect s "{") = "")
    by (rewrite E0; discriminate).
  rewrite (read_bytes_relax _ _ _ _ _ _ _ _ F0 He
             (Nat.le_refl _) (Nat.le_refl _) R Hne).
  rewrite N.
  change (clear (rlx ist1) false false) with (rlx (clear ist1 false false)).
  rewrite (expect_relax _ _ F2).
  change (fail (rlx (expect (clear ist1 false false) "}")))
    with (fail (expect (clear ist1 false false) "}")).
  rewrite F2. reflexivity.
Qed.

Lemma extract_word_relax (line : string) :
  skipws line <> "" ->
  extract_word (wistringstream (line ++ String c rest))
  = (rlx (fst (extract_word (wistringstream line))),
     snd (extract_word (wistringstream line))).
Proof.
  intros Hws. unfold extract_word, wistringstream, good.
  cbn [rdbuf eofbit failbit ihex negb andb].
  rewrite skipws_relax by assumption.
  destruct (skipws line) as [|a b]; [congruence|].
  change (String a b ++ String c rest) with (String a (b ++ String c rest)).
  cbv iota.
  change (String a (b ++ String c rest)) with (String a b ++ String c rest).
  rewrite span_word_relax.
  destruct (span_word (String a b)) as [w r]. cbn [fst snd relax rdbuf].
  now rewrite is_empty_relax.
Qed.

(** An extraction that succeeds started on a good stream and found more
    than white space. *)
Lemma extract_uint_ok (s s1 : wistream) (v : Z) :
  extract_uint s = (s1, v) -> fail s1 = false ->
  good s = true /\ skipws (rdbuf s) <> "".
Proof.
  unfold extract_uint.
  destruct (good s); cbn [negb]; [|intros H; pinv H; discriminate].
  destruct (skipws (rdbuf s)); [intros H; pinv H; discriminate|].
  intros _ _. split; [reflexivity|discriminate].
Qed.

Lemma parse_request_relax (line : string) (req : request) :
  skipws line <> "" ->
  parse_request line = Some req ->
  parse_request (line ++ String c rest) = Some req.
Proof.
  intros Hws. unfold parse_request. rewrite extract_word_relax by assumption.
  destruct (extract_word (wistringstream line)) as [ls command]. cbn [fst snd].
  destruct (command =? "write")%string.
  { destruct (operator_in_bytes ls cout_init) as [[ls1 os1] wb] eqn:P.
    destruct (fail ls1) eqn:F; [discriminate|].
    rewrite (operator_in_bytes_relax _ _ _ _ _ P F).
    change (fail (rlx ls1)) with (fail ls1). now rewrite F. }
  destruct (command =? "read")%string.
  { destruct (extract_uint ls) as [ls1 n] eqn:E.
    destruct (fail ls1) eqn:F; [discriminate|].
    destruct (extract_uint_ok _ _ _ E F) as [G Hw].
    rewrite (extract_uint_relax _ _ _ G Hw E).
    change (fail (rlx ls1)) with (fail ls1). now rewrite F. }
  destruct (command =? "writeread")%string; [|discriminate].
  destruct (operator_in_bytes ls cout_init) as [[ls1 os1] wb] eqn:P.
  destruct (fail ls1) eqn:F; [discriminate|].
  rewrite (operator_in_bytes_relax _ _ _ _ _ P F).
  change (fail (rlx ls1)) with (fail ls1). rewrite F.
  destruct (extract_uint ls1) as [ls2 n] eqn:E.
  destruct (fail ls2) eqn:F2; [discriminate|].
  destruct (extract_uint_ok _ _ _ E F2) as [G Hw].
  rewrite (extract_uint_relax _ _ _ G Hw E).
  change (fail (rlx ls2)) with (fail ls2). now rewrite F2.
Qed.

End Trailing.

(** A line of white space only is no command. *)
Lemma blank_line_incomplete (line : string) :
  skipws line = "" -> complete_command line = false.
Proof.
  intros E. unfold complete_command, parse_request, extract_word, wistringstream.
  cbn [good rdbuf eofbit failbit ihex negb andb]. rewrite E. reflexivity.
Qed.

(** C10: when the first words of a line are a command of the tool with the
    arguments it needs, text that follows them after white space changes
    nothing: the line is answered as the line without this text is -- the
    same transfer, the same output, the same way on. *)
Theorem trailing_text_ignored :
  forall (D : Type) (device : I2cDevice D) (line : string) (c : ascii)
         (rest : string) (d : D) (wcout : wostream),
    complete_command line = true ->
    isspace c = true ->
    ShowPrompt_line device (line ++ String c rest) d wcout
    = ShowPrompt_line device line d wcout.
Proof.
  intros D device line c rest d wcout Hc Hs.
  assert (Hws : skipws line <> "").
  { intros E. rewrite (blank_line_incomplete line E) in Hc. discriminate. }
  destruct (parse_request line) as [req|] eqn:P.
  - rewrite (ShowPrompt_line_perform device line req d wcout P).
    apply ShowPrompt_line_perform.
    now apply parse_request_relax.
  - unfold complete_command in Hc. cbv zeta in Hc.
    rewrite P, orb_false_r in Hc.
    unfold ShowPrompt_line. rewrite (extract_word_relax c rest Hs line Hws).
    destruct (extract_word (wistringstream line)) as [ls command].
    cbn [fst snd] in *.
    destruct ((command =? "q")%string || (command =? "quit")%string) eqn:Q;
      [reflexivity|].
    destruct ((command =? "h")%string || (command =? "help")%string) eqn:H;
      [reflexivity|].
    apply orb_false_elim in H. destruct H as [H1 H2].
    rewrite H1, H2 in Hc. cbn [orb] in Hc.
    apply String.eqb_eq in Hc. subst command. reflexivity.
Qed.

(** The line [read 4 extra]. *)
Lemma trailing_text_ignored_witness :
  ShowPrompt_line (sim_device (mk_result FullTransfer 4) [x11; x22])
    ("read 4" ++ String " " "extra") [] cout_init
  = ShowPrompt_line (sim_device (mk_result FullTransfer 4) [x11; x22])
      "read 4" [] cout_init.
Proof.
  apply (trailing_text_ignored (list request)
           (sim_device (mk_result FullTransfer 4) [x11; x22])
           "read 4" " " "extra" [] cout_init).
  - vm_compute. reflexivity.
  - vm_compute. reflexivity.
Defined.

(** * Further properties *)

(** ** Numbers written and read back *)

(** Replace the value of a digit character by its number. *)
Ltac digit_literal :=
  match goal with
  | |- context [Z.of_N (N_of_ascii ?c) - ?k] =>
      let v := eval vm_compute in (Z.of_N (N_of_ascii c) - k) in
      change (Z.of_N (N_of_ascii c) - k) with v
  end.

Lemma scan_dec_acc (d : Decimal.uint) :
  forall acc : positive,
    scan_digits false (DecimalString.NilEmpty.string_of_uint d) (Z.pos acc) true
    = (Z.pos (Pos.of_uint_acc d acc), true, "").
Proof.
  induction d; intros acc; cbn [DecimalString.NilEmpty.string_of_uint
    scan_digits Pos.of_uint_acc]; try reflexivity;
    match goal with
    | |- context [digit_in_base false ?c] =>
        change (digit_in_base false c) with (Some (Z.of_N (N_of_ascii c) - 48))
    end; cbv iota; rewrite <- IHd; f_equal; digit_literal; lia.
Qed.

Lemma scan_dec (d : Decimal.uint) :
  forall seen : bool,
    scan_digits false (DecimalString.NilEmpty.string_of_uint d) 0 seen
    = (Z.of_N (Pos.of_uint d),
       match d with Decimal.Nil => seen | _ => true end, "").
Proof.
  induction d; intros seen; cbn [DecimalString.NilEmpty.string_of_uint
    scan_digits Pos.of_uint]; try reflexivity;
    match goal with
    | |- context [digit_in_base false ?c] =>
        change (digit_in_base false c) with (Some (Z.of_N (N_of_ascii c) - 48))
    end; cbv iota; digit_literal.
  - change (0 * 10 + 0) with 0. rewrite IHd. destruct d; reflexivity.
  - apply (scan_dec_acc d 1).
  - apply (scan_dec_acc d 2).
  - apply (scan_dec_acc d 3).
  - apply (scan_dec_acc d 4).
  - apply (scan_dec_acc d 5).
  - apply (scan_dec_acc d 6).
  - apply (scan_dec_acc d 7).
  - apply (scan_dec_acc d 8).
  - apply (scan_dec_acc d 9).
Qed.

Lemma scan_hex_acc (d : Hexadecimal.uint) :
  forall acc : positive,
    scan_digits true (HexadecimalString.NilEmpty.string_of_uint d) (Z.pos acc) true
    = (Z.pos (Pos.of_hex_uint_acc d acc), true, "").
Proof.
  induction d; intros acc; cbn [HexadecimalString.NilEmpty.string_of_uint
    scan_digits Pos.of_hex_uint_acc]; try reflexivity;
    match goal with
    | |- context [digit_in_base true ?c] =>
        let v := eval vm_compute in (digit_in_base true c) in
        change (digit_in_base true c) with v
    end; cbv iota; rewrite <- IHd; f_equal; lia.
Qed.

Lemma scan_hex (d : Hexadecimal.uint) :
  forall seen : bool,
    scan_digits true (HexadecimalString.NilEmpty.string_of_uint d) 0 seen
    = (Z.of_N (Pos.of_hex_uint d),
       match d with Hexadecimal.Nil => seen | _ => true end, "").
Proof.
  induction d; intros seen; cbn [HexadecimalString.NilEmpty.string_of_uint
    scan_digits Pos.of_hex_uint]; try reflexivity;
    match goal with
    | |- context [digit_in_base true ?c] =>
        let v := eval vm_compute in (digit_in_base true c) in
        change (digit_in_base true c) with v
    end; cbv iota;
    try match goal with
        | |- scan_digits true _ (0 * 16 + Z.pos ?k) true = _ =>
            apply (scan_hex_acc d k)
        end.
  change (0 * 16 + 0) with 0. rewrite IHd. destruct d; reflexivity.
Qed.

Lemma to_uint_nonnil (n : N) : N.to_uint n <> Decimal.Nil.
Proof.
  destruct n as [|p]; [discriminate|].
  apply DecimalPos.Unsigned.to_uint_nonnil.
Qed.

Lemma to_hex_uint_nonnil (n : N) : N.to_hex_uint n <> Hexadecimal.Nil.
Proof.
  destruct n as [|p]; [discriminate|].
  apply HexadecimalPos.Unsigned.to_uint_nonnil.
Qed.

(** The digits the program prints for a number, in either base, read back
    as this number. *)
Lemma scan_fmt_uint (hex : bool) (n : Z) :
  0 <= n -> scan_digits hex (fmt_uint hex n) 0 false = (n, true, "").
Proof.
  intros Hn. unfold fmt_uint, hex_string, dec_string.
  destruct hex.
  - pose proof (to_hex_uint_nonnil (Z.to_N n)) as Hd.
    pose proof (HexadecimalN.Unsigned.of_to (Z.to_N n)) as Hv.
    unfold N.of_hex_uint in Hv.
    destruct (N.to_hex_uint (Z.to_N n)) as [|d|d|d|d|d|d|d|d|d|d|d|d|d|d|d|d] eqn:E;
      [congruence|..];
      unfold HexadecimalString.NilZero.string_of_uint;
      rewrite scan_hex, Hv, Z2N.id by exact Hn; reflexivity.
  - pose proof (to_uint_nonnil (Z.to_N n)) as Hd.
    pose proof (DecimalN.Unsigned.of_to (Z.to_N n)) as Hv.
    unfold N.of_uint in Hv.
    destruct (N.to_uint (Z.to_N n)) as [|d|d|d|d|d|d|d|d|d|d] eqn:E;
      [congruence|..];
      unfold DecimalString.NilZero.string_of_uint;
      rewrite scan_dec, Hv, Z2N.id by exact Hn; reflexivity.
Qed.

(** They start with a digit: no white space, no sign and no [0x] before
    them. *)
Lemma fmt_uint_head (hex : bool) (n : Z) :
  skipws (fmt_uint hex n) = fmt_uint hex n /\
  fmt_uint hex n <> "" /\
  scan_sign (fmt_uint hex n) = (false, fmt_uint hex n) /\
  scan_prefix hex (fmt_uint hex n) = fmt_uint hex n.
Proof.
  unfold fmt_uint, hex_string, dec_string.
  destruct hex.
  - pose proof (to_hex_uint_nonnil (Z.to_N n)) as Hd.
    destruct (N.to_hex_uint (Z.to_N n)) as [|d|d|d|d|d|d|d|d|d|d|d|d|d|d|d|d];
      [congruence|..]; (repeat split; try reflexivity; try discriminate);
      destruct d; reflexivity.
  - pose proof (to_uint_nonnil (Z.to_N n)) as Hd.
    destruct (N.to_uint (Z.to_N n)) as [|d|d|d|d|d|d|d|d|d|d];
      [congruence|..]; (repeat split; try reflexivity; try discriminate);
      destruct d; reflexivity.
Qed.

Lemma skipws_all_space (ws b : string) :
  all_space ws = true -> skipws (ws ++ b) = skipws b.
Proof.
  induction ws as [|w ws IH]; simpl; intros H; [reflexivity|].
  apply andb_prop in H. destruct H as [Hw Hws]. rewrite Hw. now apply IH.
Qed.

Lemma skipws_word (w : string) :
  no_space w = true -> skipws w = w.
Proof.
  destruct w as [|a w]; simpl; [reflexivity|].
  intros H. apply andb_prop in H. destruct H as [Ha _].
  apply negb_true_iff in Ha. now rewrite Ha.
Qed.

Lemma span_word_word (w : string) (c : ascii) (rest : string) :
  no_space w = true ->
  isspace c = true ->
  span_word w = (w, "") /\ span_word (w ++ String c rest) = (w, String c rest).
Proof.
  intros Hw Hc. induction w as [|a w IH]; simpl.
  - rewrite Hc. split; reflexivity.
  - simpl in Hw. apply andb_prop in Hw. destruct Hw as [Ha Hw].
    apply negb_true_iff in Ha. rewrite Ha.
    destruct (IH Hw) as [-> ->]. split; reflexivity.
Qed.

(** The extraction of a number depends on the input after the white
    space only. *)
Lemma extract_uint_skip (ws b : string) (hex : bool) :
  all_space ws = true ->
  extract_uint {| rdbuf := ws ++ b; eofbit := false; failbit := false; ihex := hex |}
  = extract_uint {| rdbuf := b; eofbit := false; failbit := false; ihex := hex |}.
Proof.
  intros H. unfold extract_uint, good.
  cbn [rdbuf eofbit failbit ihex negb andb].
  now rewrite skipws_all_space.
Qed.

(** A number the program printed, at the end of the input. *)
Lemma extract_uint_fmt_eof (hex : bool) (n : Z) :
  0 <= n <= UINT_MAX ->
  extract_uint {| rdbuf := fmt_uint hex n; eofbit := false; failbit := false;
                  ihex := hex |}
  = ({| rdbuf := ""; eofbit := true; failbit := false; ihex := hex |}, n).
Proof.
  intros [Hlo Hhi]. unfold extract_uint, good.
  cbn [rdbuf eofbit failbit ihex negb andb].
  destruct (fmt_uint_head hex n) as (Hs & Hne & Hsg & Hpx).
  rewrite Hs.
  pose proof (scan_fmt_uint hex n Hlo) as Hsc.
  destruct (fmt_uint hex n) as [|a b] eqn:E; [congruence|].
  rewrite Hsg, Hpx, Hsc. cbn [negb is_empty].
  destruct (Z.gtb_spec n UINT_MAX) as [H|_]; [lia|]. reflexivity.
Qed.

(** A number the program printed, followed by white space. *)
Lemma extract_uint_fmt (hex : bool) (n : Z) (ws : string) (c : ascii)
  (rest : string) :
  0 <= n <= UINT_MAX ->
  all_space ws = true ->
  isspace c = true ->
  extract_uint {| rdbuf := ws ++ fmt_uint hex n ++ String c rest;
                  eofbit := false; failbit := false; ihex := hex |}
  = ({| rdbuf := String c rest; eofbit := false; failbit := false;
        ihex := hex |}, n).
Proof.
  intros Hn Hws Hc. rewrite extract_uint_skip by assumption.
  pose proof (extract_uint_fmt_eof hex n Hn) as E.
  apply (extract_uint_relax c rest Hc) in E.
  - exact E.
  - reflexivity.
  - cbn [rdbuf]. destruct (fmt_uint_head hex n) as (Hs & Hne & _).
    now rewrite Hs.
Qed.

(** ** Byte buffers written and read back *)

Lemma to_BYTE_value (b : BYTE) : to_BYTE (BYTE_value b) = b.
Proof.
  unfold to_BYTE, BYTE_value.
  rewrite Z.mod_small by (pose proof (Byte.to_N_bounded b); lia).
  now rewrite N2Z.id, Byte.of_to_N.
Qed.

(** What the program prints for bytes, followed by white space, starts
    with white space. *)
Lemma render_bytes_tail (bs : list BYTE) (c : ascii) (t : string) :
  isspace c = true ->
  exists c' t', render_bytes bs ++ String c t = String c' t' /\ isspace c' = true.
Proof.
  intros Hc. destruct bs as [|b bs].
  - exists c, t. split; [reflexivity|exact Hc].
  - eexists " "%char, _. split; [reflexivity|reflexivity].
Qed.

Lemma length_render_step (b : BYTE) (r : string) :
  (String.length r < String.length (" " ++ hex_string (BYTE_value b) ++ r))%nat.
Proof. simpl. rewrite length_append. lia. Qed.

(** One turn of the loop on a byte the program printed. *)
Lemma read_bytes_step (fuel : nat) (b : BYTE) (c : ascii) (t : string)
  (os : wostream) (acc : list BYTE) :
  isspace c = true ->
  read_bytes (S fuel)
    {| rdbuf := " " ++ hex_string (BYTE_value b) ++ String c t;
       eofbit := false; failbit := false; ihex := true |} os acc
  = read_bytes fuel
      {| rdbuf := String c t; eofbit := false; failbit := false; ihex := true |}
      os (acc ++ [b])%list.
Proof.
  intros Hc. rewrite read_bytes_eq.
  change (set_ihex ?s) with
    {| rdbuf := " " ++ fmt_uint true (BYTE_value b) ++ String c t;
       eofbit := false; failbit := false; ihex := true |}.
  pose proof (BYTE_value_range b) as Hr.
  rewrite (extract_uint_fmt true (BYTE_value b) " " c t)
    by (unfold UINT_MAX; lia || reflexivity || assumption).
  cbn [fail failbit].
  destruct (Z.gtb_spec (BYTE_value b) 255) as [H|_]; [lia|].
  now rewrite to_BYTE_value.
Qed.

(** The loop reads the bytes the program printed, up to the white space
    that follows them. *)
Lemma read_bytes_render (bs : list BYTE) :
  forall (fuel : nat) (c : ascii) (t : string) (os : wostream)
         (acc : list BYTE),
    isspace c = true ->
    (String.length (render_bytes bs ++ String c t) <= fuel)%nat ->
    read_bytes fuel
      {| rdbuf := render_bytes bs ++ String c t;
         eofbit := false; failbit := false; ihex := true |} os acc
    = read_bytes fuel
        {| rdbuf := String c t; eofbit := false; failbit := false;
           ihex := true |} os (acc ++ bs)%list.
Proof.
  induction bs as [|b bs IH]; intros fuel c t os acc Hc Hlen.
  - cbn [render_bytes append]. now rewrite app_nil_r.
  - cbn [render_bytes] in *. rewrite !append_assoc in *.
    destruct (render_bytes_tail bs c t Hc) as (c' & t' & E & Hc').
    pose proof (length_render_step b (render_bytes bs ++ String c t)) as Hl.
    destruct fuel as [|fuel]; [lia|].
    rewrite E, (read_bytes_step fuel b c' t' os acc Hc'), <- E.
    rewrite IH by (assumption || lia).
    rewrite <- app_assoc.
    pose proof (length_append (render_bytes bs) (String c t)) as Hl1.
    pose proof (length_append (hex_string (BYTE_value b))
                  (render_bytes bs ++ String c t)) as Hl2.
    apply read_bytes_fuel; simpl String.length in *; lia.
Qed.

(** The loop stops at a closing brace. *)
Lemma read_bytes_brace (fuel : nat) (ws rest : string) (os : wostream)
  (acc : list BYTE) :
  all_space ws = true ->
  read_bytes fuel
    {| rdbuf := ws ++ "}" ++ rest; eofbit := false; failbit := false;
       ihex := true |} os acc
  = ({| rdbuf := "}" ++ rest; eofbit := false; failbit := true; ihex := true |},
     os, acc, ReadFailed).
Proof.
  intros Hws. rewrite read_bytes_eq. unfold extract_uint.
  cbn [good set_ihex eofbit failbit negb andb rdbuf ihex].
  change ("}" ++ rest) with (String "}" rest).
  rewrite skipws_app by (assumption || reflexivity).
  destruct rest; reflexivity.
Qed.

(** The loop does not depend on the base the stream had before. *)
Lemma read_bytes_any_base (fuel : nat) (b : string) (hex : bool)
  (os : wostream) (acc : list BYTE) :
  read_bytes fuel
    {| rdbuf := b; eofbit := false; failbit := false; ihex := hex |} os acc
  = read_bytes fuel
      {| rdbuf := b; eofbit := false; failbit := false; ihex := true |} os acc.
Proof. rewrite !read_bytes_eq. reflexivity. Qed.

(** The operator on bytes as the program prints them, between braces. *)
Lemma operator_in_bytes_render (bytes : list BYTE) (ws rest : string)
  (hex : bool) (os : wostream) :
  bytes <> [] ->
  all_space ws = true ->
  operator_in_bytes
    {| rdbuf := ws ++ "{" ++ render_bytes bytes ++ " }" ++ rest;
       eofbit := false; failbit := false; ihex := hex |} os
  = ({| rdbuf := rest; eofbit := false; failbit := false; ihex := true |},
     os, bytes).
Proof.
  intros Hne Hws.
  unfold operator_in_bytes, expect.
  cbn [good eofbit failbit negb andb rdbuf ihex].
  change ("{" ++ render_bytes bytes ++ " }" ++ rest)
    with (String "{" (render_bytes bytes ++ String " " ("}" ++ rest))).
  rewrite expect_scan_found by (assumption || reflexivity).
  cbn [fail failbit rdbuf].
  rewrite read_bytes_any_base, read_bytes_render by (reflexivity || apply Nat.le_refl).
  rewrite (read_bytes_brace _ " " rest os) by reflexivity.
  cbn [app]. destruct bytes as [|b bs]; [congruence|].
  cbn [is_nil]. reflexivity.
Qed.

(** X1: what [operator<<] prints for an array that is not empty, put
    between braces, is read back by [operator>>] as the same bytes: the
    parse succeeds, writes nothing, and leaves the stream right after the
    closing brace, in base 16. *)
Theorem printed_bytes_parse_back :
  forall (bytes : list BYTE) (ws rest : string) (hex : bool) (os : wostream),
    bytes <> [] ->
    all_space ws = true ->
    operator_in_bytes
      {| rdbuf := ws ++ "{" ++ text (operator_out_bytes cout_init bytes)
                     ++ " }" ++ rest;
         eofbit := false; failbit := false; ihex := hex |} os
    = ({| rdbuf := rest; eofbit := false; failbit := false; ihex := true |},
       os, bytes).
Proof.
  intros bytes ws rest hex os Hne Hws.
  rewrite operator_out_bytes_text. cbn [text cout_init append].
  now apply operator_in_bytes_render.
Qed.

(** The buffer of the help text. *)
Lemma printed_bytes_parse_back_witness :
  [x00; x11; xff] <> [] /\ all_space "  " = true /\
  operator_in_bytes (wistringstream "  { 0 11 ff } 4") cout_init
  = ({| rdbuf := " 4"; eofbit := false; failbit := false; ihex := true |},
     cout_init, [x00; x11; xff]).
Proof.
  split; [discriminate|]. split; [reflexivity|].
  exact (printed_bytes_parse_back [x00; x11; xff] "  " " 4" false cout_init
           ltac:(discriminate) eq_refl).
Defined.

(** *** Bytes and numbers in any spelling *)

Lemma reads_as_starts (tok : string) (v : Z) :
  reads_as tok v -> skipws tok <> "".
Proof.
  unfold reads_as, extract_uint.
  cbn [good eofbit failbit negb andb rdbuf ihex].
  destruct (skipws tok); [|discriminate].
  intros H. pinv H. discriminate.
Qed.

(** A spelling of a number, after a space and before white space. *)
Lemma reads_as_then (tok : string) (v : Z) (c : ascii) (rest : string) :
  reads_as tok v ->
  isspace c = true ->
  extract_uint {| rdbuf := " " ++ tok ++ String c rest;
                  eofbit := false; failbit := false; ihex := true |}
  = ({| rdbuf := String c rest; eofbit := false; failbit := false;
        ihex := true |}, v).
Proof.
  intros E Hc. rewrite (extract_uint_skip " ") by reflexivity.
  pose proof (reads_as_starts tok v E) as Hs.
  apply (extract_uint_relax c rest Hc) in E; [exact E|reflexivity|exact Hs].
Qed.

(** What the program prints for a number is one of its spellings. *)
Lemma reads_as_hex_string (n : Z) :
  0 <= n <= UINT_MAX -> reads_as (hex_string n) n.
Proof. intros Hn. exact (extract_uint_fmt_eof true n Hn). Qed.

Lemma spaced_tail (toks : list string) (c : ascii) (t : string) :
  isspace c = true ->
  exists c' t', spaced toks ++ String c t = String c' t' /\ isspace c' = true.
Proof.
  intros Hc. destruct toks as [|tok toks].
  - exists c, t. split; [reflexivity|exact Hc].
  - eexists " "%char, _. split; [reflexivity|reflexivity].
Qed.

(** The loop reads bytes in any spelling, up to the white space that
    follows them. *)
Lemma read_bytes_spaced (toks : list string) (bs : list BYTE) :
  Forall2 (fun tok b => reads_as tok (BYTE_value b)) toks bs ->
  forall (fuel : nat) (c : ascii) (t : string) (os : wostream)
         (acc : list BYTE),
    isspace c = true ->
    (String.length (spaced toks ++ String c t) <= fuel)%nat ->
    read_bytes fuel
      {| rdbuf := spaced toks ++ String c t;
         eofbit := false; failbit := false; ihex := true |} os acc
    = read_bytes fuel
        {| rdbuf := String c t; eofbit := false; failbit := false;
           ihex := true |} os (acc ++ bs)%list.
Proof.
  induction 1 as [|tok b toks bs Htok _ IH]; intros fuel c t os acc Hc Hlen.
  - cbn [spaced append]. now rewrite app_nil_r.
  - cbn [spaced] in *. rewrite !append_assoc in *.
    destruct (spaced_tail toks c t Hc) as (c' & t' & E & Hc').
    assert (Hl : (String.length (spaced toks ++ String c t)
                  < String.length (" " ++ tok ++ spaced toks ++ String c t))%nat)
      by (simpl; rewrite (length_append tok); lia).
    destruct fuel as [|fuel]; [lia|].
    rewrite E, read_bytes_eq.
    change (set_ihex ?s) with
      {| rdbuf := " " ++ tok ++ String c' t';
         eofbit := false; failbit := false; ihex := true |}.
    rewrite (reads_as_then tok (BYTE_value b) c' t' Htok Hc').
    cbn [fail failbit].
    pose proof (BYTE_value_range b) as Hr.
    destruct (Z.gtb_spec (BYTE_value b) 255) as [H|_]; [lia|].
    rewrite to_BYTE_value, <- E.
    rewrite IH by (assumption || lia).
    rewrite <- app_assoc.
    pose proof (length_append (spaced toks) (String c t)) as Hl1.
    pose proof (length_append tok (spaced toks ++ String c t)) as Hl2.
    apply read_bytes_fuel; cbn [rdbuf]; simpl String.length in *; lia.
Qed.

(** X2: a number above [0xff], in any spelling the extraction accepts in
    base 16 (upper or lower case, leading zeros, a [0x] prefix, a sign),
    after any bytes in any such spelling and before white space, ends the
    parse: the operator prints "Out of range [0, 0xff]: " and the number in
    base 16, leaves the output stream in base 16, sets [failbit], and the
    vector keeps the bytes read before. *)
Theorem number_above_ff_refused :
  forall (toks : list string) (bytes : list BYTE) (tok : string) (n : Z)
         (ws : string) (c : ascii) (rest : string) (hex : bool)
         (os : wostream),
    Forall2 (fun t b => reads_as t (BYTE_value b)) toks bytes ->
    reads_as tok n ->
    255 < n ->
    all_space ws = true ->
    isspace c = true ->
    operator_in_bytes
      {| rdbuf := ws ++ "{" ++ spaced toks ++ " " ++ tok ++ String c rest;
         eofbit := false; failbit := false; ihex := hex |} os
    = ({| rdbuf := String c rest; eofbit := false; failbit := true;
          ihex := true |},
       {| text := text os ++ out_of_range_line n; ohex := true |},
       bytes).
Proof.
  intros toks bytes tok n ws c rest hex os Htoks Htok Hn Hws Hc.
  unfold operator_in_bytes, expect.
  cbn [good eofbit failbit negb andb rdbuf ihex].
  change ("{" ++ spaced toks ++ " " ++ tok ++ String c rest)
    with (String "{" (spaced toks ++ String " " (tok ++ String c rest))).
  rewrite expect_scan_found by (assumption || reflexivity).
  cbn [fail failbit rdbuf].
  rewrite read_bytes_any_base.
  rewrite (read_bytes_spaced toks bytes Htoks)
    by (reflexivity || apply Nat.le_refl).
  rewrite read_bytes_eq.
  change (set_ihex ?s) with
    {| rdbuf := " " ++ tok ++ String c rest;
       eofbit := false; failbit := false; ihex := true |}.
  rewrite (reads_as_then tok n c rest Htok Hc).
  cbn [fail failbit app].
  destruct (Z.gtb_spec n 255) as [_|H]; [|lia].
  unfold out_of_range_line, put_uint, put_str, set_ohex, fmt_uint, clear.
  cbn [text ohex rdbuf ihex]. now rewrite !append_assoc.
Qed.

(** The number 0x1FF after the bytes 01 and 0xa, and -1 after no byte. *)
Lemma number_above_ff_refused_witness :
  operator_in_bytes (wistringstream "{ 01 0xA 1FF }") cout_init
  = ({| rdbuf := " }"; eofbit := false; failbit := true; ihex := true |},
     {| text := out_of_range_line 511; ohex := true |}, [x01; x0a]) /\
  operator_in_bytes (wistringstream "  { -1 }") cout_init
  = ({| rdbuf := " }"; eofbit := false; failbit := true; ihex := true |},
     {| text := out_of_range_line 4294967295; ohex := true |}, []).
Proof.
  split.
  - apply (number_above_ff_refused ["01"; "0xA"] [x01; x0a] "1FF" 511
             "" " " "}" false cout_init).
    + repeat constructor.
    + reflexivity.
    + reflexivity.
    + reflexivity.
    + reflexivity.
  - apply (number_above_ff_refused [] [] "-1" 4294967295
             "  " " " "}" false cout_init).
    + constructor.
    + reflexivity.
    + reflexivity.
    + reflexivity.
    + reflexivity.
Defined.

(** The loop on bytes the program printed, up to the end of the input. *)
Lemma read_bytes_render_eof (bs : list BYTE) :
  forall (fuel : nat) (os : wostream) (acc : list BYTE),
    bs <> [] ->
    (String.length (render_bytes bs) <= fuel)%nat ->
    read_bytes fuel
      {| rdbuf := render_bytes bs; eofbit := false; failbit := false;
         ihex := true |} os acc
    = ({| rdbuf := ""; eofbit := true; failbit := true; ihex := true |},
       os, (acc ++ bs)%list, ReadFailed).
Proof.
  induction bs as [|b bs IH]; intros fuel os acc Hne Hlen; [congruence|].
  destruct bs as [|b' bs].
  - cbn [render_bytes] in *. rewrite append_nil_r in *.
    rewrite read_bytes_eq.
    change (set_ihex ?s) with
      {| rdbuf := " " ++ fmt_uint true (BYTE_value b);
         eofbit := false; failbit := false; ihex := true |}.
    pose proof (BYTE_value_range b) as Hr.
    rewrite (extract_uint_skip " " _ true eq_refl).
    rewrite extract_uint_fmt_eof by (unfold UINT_MAX; lia).
    cbn [fail failbit].
    destruct (Z.gtb_spec (BYTE_value b) 255) as [H|_]; [lia|].
    rewrite to_BYTE_value.
    destruct fuel as [|fuel]; [simpl in Hlen; lia|].
    rewrite read_bytes_eq. reflexivity.
  - change (render_bytes (b :: b' :: bs))
      with (" " ++ hex_string (BYTE_value b)
              ++ String " " (hex_string (BYTE_value b') ++ render_bytes bs)) in *.
    pose proof (length_render_step b (render_bytes (b' :: bs))) as Hl.
    destruct fuel as [|fuel]; [simpl in Hlen; lia|].
    rewrite read_bytes_step by reflexivity.
    change (String " " (hex_string (BYTE_value b') ++ render_bytes bs))
      with (render_bytes (b' :: bs)) in *.
    rewrite IH by (discriminate || (simpl String.length in *; lia)).
    now rewrite <- app_assoc.
Qed.

(** X3: when the line ends after the last byte of a buffer, the operator
    prints "Syntax error: expecting '}'" and sets [failbit]; the bytes that
    were read stay in the vector. *)
Theorem missing_closing_brace :
  forall (bytes : list BYTE) (ws : string) (hex : bool) (os : wostream),
    bytes <> [] ->
    all_space ws = true ->
    operator_in_bytes
      {| rdbuf := ws ++ "{" ++ render_bytes bytes;
         eofbit := false; failbit := false; ihex := hex |} os
    = ({| rdbuf := ""; eofbit := true; failbit := true; ihex := true |},
       os << "Syntax error: expecting '}'" ++ nl, bytes).
Proof.
  intros bytes ws hex os Hne Hws.
  unfold operator_in_bytes, expect.
  cbn [good eofbit failbit negb andb rdbuf ihex].
  change ("{" ++ render_bytes bytes) with (String "{" (render_bytes bytes)).
  rewrite expect_scan_found by (assumption || reflexivity).
  cbn [fail failbit rdbuf].
  rewrite read_bytes_any_base, read_bytes_render_eof
    by (assumption || apply Nat.le_refl).
  cbn [app]. destruct bytes as [|b bs]; [congruence|]. reflexivity.
Qed.

(** The line [write { 1 2] after its command word. *)
Lemma missing_closing_brace_witness :
  operator_in_bytes (wistringstream " { 1 2") cout_init
  = ({| rdbuf := ""; eofbit := true; failbit := true; ihex := true |},
     cout_init << "Syntax error: expecting '}'" ++ nl, [x01; x02]).
Proof.
  exact (missing_closing_brace [x01; x02] " " false cout_init
           ltac:(discriminate) eq_refl).
Defined.

(** ** [expect] and the opening brace *)

Lemma expect_scan_inv (b : string) (hex : bool) (delim : ascii) :
  fail (expect_scan b hex delim) = false ->
  exists ws r, all_space ws = true /\ b = ws ++ String delim r.
Proof.
  induction b as [|ch b IH]; simpl; [discriminate|].
  destruct (Ascii.eqb_spec ch delim) as [->|Hne].
  - intros _. exists "", b. split; reflexivity.
  - destruct (isspace ch) eqn:Hs; simpl; [|discriminate].
    intros H. destruct (IH H) as (ws & r & Hws & ->).
    exists (String ch ws), r. split; [simpl; now rewrite Hs|reflexivity].
Qed.

(** X4: [expect] succeeds exactly on white space followed by the
    delimiter.  On a good stream whose input is white space, the delimiter
    and more, it leaves a good stream right after the delimiter; whenever it
    does not fail, the input was of this form; and on a stream that is not
    good it sets [failbit] and reads nothing. *)
Theorem expect_finds_delimiter :
  forall (ist : wistream) (delim : ascii),
    isspace delim = false ->
    (forall ws r,
       good ist = true -> all_space ws = true ->
       rdbuf ist = ws ++ String delim r ->
       expect ist delim
       = {| rdbuf := r; eofbit := false; failbit := false; ihex := ihex ist |})
    /\ (fail (expect ist delim) = false ->
        good ist = true /\
        exists ws r, all_space ws = true /\ rdbuf ist = ws ++ String delim r)
    /\ (good ist = false -> expect ist delim = setstate_fail ist).
Proof.
  intros ist delim Hd. unfold expect. repeat split.
  - intros ws r G Hws E. rewrite G, E. cbn [negb].
    now apply expect_scan_found.
  - destruct (good ist); [reflexivity|discriminate].
  - destruct (good ist); cbn [negb] in *; [|discriminate].
    now apply expect_scan_inv in H.
  - intros G. now rewrite G.
Qed.

Lemma expect_finds_delimiter_witness :
  expect (wistringstream "  { 1 }") "{"
  = {| rdbuf := " 1 }"; eofbit := false; failbit := false; ihex := false |}.
Proof.
  exact (proj1 (expect_finds_delimiter (wistringstream "  { 1 }") "{" eq_refl)
           "  " " 1 }" eq_refl eq_refl eq_refl).
Defined.

(** X5: when the input of the byte-buffer operator is not white space
    followed by an opening brace, the operator prints "Syntax error:
    expecting '{'", reports the failure through [failbit] and returns an
    empty vector. *)
Theorem missing_opening_brace :
  forall (ist : wistream) (os : wostream),
    (forall ws r, all_space ws = true -> rdbuf ist <> ws ++ String "{" r) ->
    operator_in_bytes ist os
    = (expect ist "{", os << "Syntax error: expecting '{'" ++ nl, [])
    /\ fail (expect ist "{") = true.
Proof.
  intros ist os Hno.
  assert (F : fail (expect ist "{") = true).
  { destruct (fail (expect ist "{")) eqn:F; [reflexivity|].
    destruct (proj1 (proj2 (expect_finds_delimiter ist "{" eq_refl)) F)
      as (_ & ws & r & Hws & E).
    now apply Hno in E. }
  split; [|exact F]. unfold operator_in_bytes. now rewrite F.
Qed.

(** A buffer without its opening brace. *)
Lemma missing_opening_brace_witness :
  operator_in_bytes (wistringstream " 1 2 }") cout_init
  = (expect (wistringstream " 1 2 }") "{",
     cout_init << "Syntax error: expecting '{'" ++ nl, []).
Proof.
  apply (missing_opening_brace (wistringstream " 1 2 }") cout_init).
  intros ws r Hws E. cbn [wistringstream rdbuf] in E.
  destruct ws as [|w ws]; [discriminate|].
  simpl in E. injection E as <- E.
  destruct ws as [|w ws]; [discriminate|].
  simpl in E. injection E as <- E. discriminate.
Defined.

(** ** The base of the output stream *)

Lemma ohex_operator_out_bytes (bytes : list BYTE) :
  forall os, ohex os = true -> ohex (operator_out_bytes os bytes) = true.
Proof.
  induction bytes as [|b bs IH]; intros os H; simpl; [exact H|].
  apply IH. reflexivity.
Qed.

Lemma ohex_read_bytes (fuel : nat) :
  forall ist os bytes ist' os' bytes' e,
    read_bytes fuel ist os bytes = (ist', os', bytes', e) ->
    ohex os = true -> ohex os' = true.
Proof.
  induction fuel as [|fuel IH]; intros ist os bytes ist' os' bytes' e;
    rewrite read_bytes_eq;
    destruct (extract_uint (set_ihex ist)) as [ist1 byte];
    destruct (fail ist1);
    try (intros H Ho; pinv H; (exact Ho || reflexivity));
    destruct (byte >? 255);
    try (intros H Ho; pinv H; (exact Ho || reflexivity)).
  apply IH.
Qed.

Lemma ohex_operator_in_bytes (ist : wistream) (os : wostream) :
  forall ist' os' bytes,
    operator_in_bytes ist os = (ist', os', bytes) ->
    ohex os = true -> ohex os' = true.
Proof.
  intros ist' os' bytes. unfold operator_in_bytes.
  destruct (fail (expect ist "{")); [intros H Ho; pinv H; exact Ho|].
  destruct (read_bytes _ _ os []) as [[[ist1 os1] bs] e] eqn:R.
  pose proof (ohex_read_bytes _ _ _ _ _ _ _ _ R) as Hr.
  destruct e.
  - destruct (is_nil bs); [intros H; pinv H; exact Hr|].
    destruct (fail (expect (clear ist1 false false) "}"));
      intros H; pinv H; exact Hr.
  - intros H; pinv H; exact Hr.
Qed.

Section Base.

Context {D : Type}.
Variable device : I2cDevice D.

Lemma ohex_perform (req : request) (d : D) (wcout : wostream) :
  ohex wcout = true -> ohex (snd (perform device req d wcout)) = true.
Proof.
  intros H.
  destruct req as [writeBuf|n|writeBuf n];
    unfold perform, transfer_write, transfer_read, transfer_writeread.
  - destruct (WritePartial device d writeBuf) as [[r|m] d'];
      [destruct (Status r)|]; exact H.
  - destruct (ReadPartial device d (new_Array n)) as [[[r data]|m] d'];
      [destruct (Status r)|]; cbn [snd put_str ohex]; try exact H;
      apply ohex_operator_out_bytes; exact H.
  - destruct (WriteReadPartial device d writeBuf (new_Array n))
      as [[[r data]|m] d']; [destruct (Status r)|];
      try destruct (_ >? 0); cbn [snd put_str ohex]; try exact H;
      apply ohex_operator_out_bytes; exact H.
Qed.

Lemma ohex_ShowPrompt_line (line : string) (d : D) (wcout : wostream) :
  ohex wcout = true -> ohex (snd (ShowPrompt_line device line d wcout)) = true.
Proof.
  intros H.
  destruct (parse_request line) as [req|] eqn:P.
  { rewrite (ShowPrompt_line_perform device line req d wcout P).
    now apply ohex_perform. }
  clear P. unfold ShowPrompt_line.
  destruct (extract_word (wistringstream line)) as [ls command].
  destruct (_ || _); [exact H|].
  destruct (_ || _); [exact H|].
  destruct (command =? "write")%string.
  { unfold do_write.
    destruct (operator_in_bytes ls wcout) as [[ls1 os1] wb] eqn:P.
    pose proof (ohex_operator_in_bytes _ _ _ _ _ P H) as H1.
    destruct (fail ls1); [exact H1|].
    unfold transfer_write.
    destruct (WritePartial device d wb) as [[r|m] d'];
      [destruct (Status r)|]; exact H1. }
  destruct (command =? "read")%string.
  { unfold do_read. destruct (extract_uint ls) as [ls1 n].
    destruct (fail ls1); [exact H|].
    apply (ohex_perform (ReqRead n)); exact H. }
  destruct (command =? "writeread")%string.
  { unfold do_writeread.
    destruct (operator_in_bytes ls wcout) as [[ls1 os1] wb] eqn:P.
    pose proof (ohex_operator_in_bytes _ _ _ _ _ P H) as H1.
    destruct (fail ls1); [exact H1|].
    destruct (extract_uint ls1) as [ls2 n].
    destruct (fail ls2); [exact H1|].
    apply (ohex_perform (ReqWriteRead wb n)); exact H1. }
  destruct (command =? "info")%string.
  { unfold do_info. destruct (BusSpeed device); reflexivity. }
  destruct (is_empty command); exact H.
Qed.

Lemma ohex_ShowPrompt (wcin : list string) :
  forall (d : D) (wcout : wostream),
    ohex wcout = true -> ohex (snd (ShowPrompt device d wcin wcout)) = true.
Proof.
  induction wcin as [|line wcin IH]; intros d wcout H; simpl; [exact H|].
  pose proof (ohex_ShowPrompt_line line d (wcout << "> ") H) as HL.
  destruct (ShowPrompt_line device line d (wcout << "> "))
    as [[[| |e] d1] wcout1]; cbn [snd] in *; [now apply IH|exact HL|exact HL].
Qed.

Lemma do_info_text (wcout : wostream) :
  do_info device wcout
  = {| text := text wcout ++ info_text device; ohex := true |}.
Proof.
  unfold do_info, info_text, operator_out_busSpeed, put_int, put_str, set_ohex,
    fmt_int.
  cbn [text ohex]. destruct (BusSpeed device); cbn [text ohex];
    now rewrite !append_assoc.
Qed.

End Base.

(** X6: the base of the console output is never set back to 10.  Once
    [std::hex] has been sent to [std::wcout] -- by the bytes of a read, by
    [info] or by the out-of-range diagnostic -- the stream is in base 16
    after every further line, up to the end of the session. *)
Theorem hex_base_is_sticky :
  forall (D : Type) (device : I2cDevice D) (wcin : list string) (d : D)
         (wcout : wostream),
    ohex wcout = true ->
    ohex (snd (ShowPrompt device d wcin wcout)) = true.
Proof. intros. now apply ohex_ShowPrompt. Qed.

(** A session that starts after some bytes were printed. *)
Lemma hex_base_is_sticky_witness :
  ohex (snd (ShowPrompt (sim_device (mk_result PartialTransfer 12) [])
               [] ["write { 1 }"%string; "bogus"%string; "help"%string]
               (operator_out_bytes cout_init [x01])))
  = true.
Proof.
  apply (hex_base_is_sticky (list request)
           (sim_device (mk_result PartialTransfer 12) []) _ []
           (operator_out_bytes cout_init [x01])).
  reflexivity.
Defined.

(** X7: [info] prints the device identifier, the slave address in base 16
    and the bus speed, and leaves the stream in base 16; the count of a
    partial write on the next line is therefore printed in base 16. *)
Theorem count_in_hex_after_info :
  forall (D : Type) (device : I2cDevice D) (line : string)
         (writeBuf : list BYTE) (n : Z) (d d' : D) (wcout : wostream),
    parse_request line = Some (ReqWrite writeBuf) ->
    WritePartial device d writeBuf
    = (Returned (mk_result PartialTransfer n), d') ->
    ShowPrompt device d ["info"%string; line] wcout
    = (None, d',
       {| text := text wcout ++ "> " ++ info_text device ++ "> " ++
                  "Partial Transfer. Transferred " ++ hex_string n ++
                  " bytes" ++ nl ++ "> ";
          ohex := true |}).
Proof.
  intros D device line writeBuf n d d' wcout Hreq Hw.
  cbn [ShowPrompt].
  change (ShowPrompt_line device "info" d (wcout << "> "))
    with (Next, d, do_info device (wcout << "> ")).
  cbv iota. rewrite do_info_text.
  rewrite (ShowPrompt_line_perform device line _ d _ Hreq).
  unfold perform, transfer_write. rewrite Hw. cbn [Status BytesTransferred].
  unfold put_uint, put_str, fmt_uint. cbn [text ohex].
  now rewrite !append_assoc.
Qed.

(** A write of which 12 bytes were transferred, after [info]. *)
Lemma count_in_hex_after_info_witness :
  ShowPrompt (sim_device (mk_result PartialTransfer 12) []) []
    ["info"%string; "write { 1 }"%string] cout_init
  = (None, [ReqWrite [x01]],
     {| text := text cout_init ++ "> " ++
                info_text (sim_device (mk_result PartialTransfer 12) []) ++
                "> " ++ "Partial Transfer. Transferred " ++ hex_string 12 ++
                " bytes" ++ nl ++ "> ";
        ohex := true |}).
Proof.
  apply (count_in_hex_after_info (list request)
           (sim_device (mk_result PartialTransfer 12) []) "write { 1 }"
           [x01] 12 [] [ReqWrite [x01]] cout_init).
  - vm_compute. reflexivity.
  - reflexivity.
Defined.

(** ** Lines and the device *)

(** X8: the loop of [ShowPrompt] is left by [return] exactly for a line
    whose first word is [q] or [quit]; and a line that does not parse to a
    transfer -- another command, a blank line, an unknown word, or
    arguments that do not parse -- never touches the device and never
    throws. *)
Theorem only_quit_returns :
  forall (D : Type) (device : I2cDevice D) (line : string) (d : D)
         (wcout : wostream),
    (fst (fst (ShowPrompt_line device line d wcout)) = Return
     <-> quits line = true) /\
    (parse_request line = None ->
     snd (fst (ShowPrompt_line device line d wcout)) = d /\
     forall e, fst (fst (ShowPrompt_line device line d wcout)) <> Throw e).
Proof.
  intros D device line d wcout.
  destruct (parse_request line) as [req|] eqn:P.
  - rewrite (ShowPrompt_line_perform device line req d wcout P).
    rewrite (parse_request_not_quit line req P). split; [|discriminate].
    split; [|discriminate]. intros H. now apply perform_flow in H.
  - destruct (ShowPrompt_line_no_request device line d wcout P) as [w ->].
    cbn [fst snd]. split.
    + destruct (quits line); split; congruence.
    + intros _. split; [reflexivity|]. destruct (quits line); discriminate.
Qed.

(** X9: white space before the command changes nothing, and a line of
    white space only (the empty line included) does nothing at all. *)
Theorem leading_white_space_ignored :
  forall (D : Type) (device : I2cDevice D) (ws line : string) (d : D)
         (wcout : wostream),
    all_space ws = true ->
    ShowPrompt_line device (ws ++ line) d wcout
    = ShowPrompt_line device line d wcout /\
    ShowPrompt_line device ws d wcout = (Next, d, wcout).
Proof.
  intros D device ws line d wcout Hws.
  assert (E : forall b, extract_word (wistringstream (ws ++ b))
                        = extract_word (wistringstream b)).
  { intros b. unfold extract_word, wistringstream, good.
    cbn [rdbuf eofbit failbit ihex negb andb].
    now rewrite skipws_all_space. }
  split.
  - unfold ShowPrompt_line. now rewrite E.
  - unfold ShowPrompt_line. rewrite <- (append_nil_r ws), E. reflexivity.
Qed.

Lemma leading_white_space_ignored_witness :
  ShowPrompt_line (sim_device (mk_result FullTransfer 1) []) ("  " ++ "quit")
    [] cout_init
  = ShowPrompt_line (sim_device (mk_result FullTransfer 1) []) "quit"
      [] cout_init.
Proof.
  exact (proj1 (leading_white_space_ignored (list request)
                  (sim_device (mk_result FullTransfer 1) []) "  " "quit" []
                  cout_init eq_refl)).
Defined.

(** The first word of a line. *)
Lemma extract_word_word (w : string) (c : ascii) (rest : string) :
  no_space w = true -> w <> "" -> isspace c = true ->
  snd (extract_word (wistringstream w)) = w /\
  snd (extract_word (wistringstream (w ++ String c rest))) = w.
Proof.
  intros Hw Hne Hc.
  destruct (span_word_word w c rest Hw Hc) as [S1 S2].
  assert (Hk : skipws (w ++ String c rest) = w ++ String c rest).
  { destruct w as [|a w]; [congruence|]. simpl in *.
    apply andb_prop in Hw. destruct Hw as [Ha _].
    apply negb_true_iff in Ha. now rewrite Ha. }
  unfold extract_word, wistringstream, good.
  cbn [rdbuf eofbit failbit ihex negb andb].
  rewrite (skipws_word w Hw), Hk.
  destruct w as [|a w]; [congruence|]. split.
  - rewrite S1. reflexivity.
  - change (String a w ++ String c rest) with (String a (w ++ String c rest)).
    cbv iota.
    change (String a (w ++ String c rest)) with (String a w ++ String c rest).
    rewrite S2. reflexivity.
Qed.

(** X10: a first word that is none of the eight command words is echoed
    whole in "Unrecognized command: ... Type 'help' for command usage.",
    whatever follows it on the line; the device is not touched and the loop
    goes on. *)
Theorem unknown_word_reported :
  forall (D : Type) (device : I2cDevice D) (w : string) (c : ascii)
         (rest : string) (d : D) (wcout : wostream),
    no_space w = true ->
    w <> "" ->
    is_command w = false ->
    isspace c = true ->
    let answer :=
      (Next, d,
       wcout << "Unrecognized command: " << w
             << ". Type 'help' for command usage." ++ nl) in
    ShowPrompt_line device w d wcout = answer /\
    ShowPrompt_line device (w ++ String c rest) d wcout = answer.
Proof.
  intros D device w c rest d wcout Hw Hne Hcmd Hc answer.
  assert (Hemp : is_empty w = false) by (destruct w; [congruence|reflexivity]).
  unfold is_command in Hcmd.
  repeat (apply orb_false_elim in Hcmd; destruct Hcmd as [Hcmd ?]).
  destruct (extract_word_word w c rest Hw Hne Hc) as [E1 E2].
  split; unfold ShowPrompt_line.
  - destruct (extract_word (wistringstream w)) as [ls command].
    cbn [snd] in E1. subst command.
    repeat match goal with H : (_ =? _)%string = false |- _ => rewrite H; clear H end.
    rewrite Hemp. reflexivity.
  - destruct (extract_word (wistringstream (w ++ String c rest))) as [ls command].
    cbn [snd] in E2. subst command.
    repeat match goal with H : (_ =? _)%string = false |- _ => rewrite H; clear H end.
    rewrite Hemp. reflexivity.
Qed.

Lemma unknown_word_reported_witness :
  ShowPrompt_line (sim_device (mk_result FullTransfer 1) [])
    ("Quit" ++ String " " "now") [] cout_init
  = (Next, [],
     cout_init << "Unrecognized command: " << "Quit"
               << ". Type 'help' for command usage." ++ nl).
Proof.
  exact (proj2 (unknown_word_reported (list request)
                  (sim_device (mk_result FullTransfer 1) []) "Quit" " " "now"
                  [] cout_init eq_refl ltac:(discriminate) eq_refl eq_refl)).
Defined.

(** ** The transfers of a session *)

Lemma sim_perform (result : I2cTransferResult) (data : list BYTE)
  (req : request) (log : list request) (wcout : wostream) :
  0 <= request_count req ->
  snd (fst (perform (sim_device result data) req log wcout))
  = (log ++ [req])%list /\
  (known (Status result) = true ->
   fst (fst (perform (sim_device result data) req log wcout)) = Next).
Proof.
  intros Hn.
  destruct req as [writeBuf|n|writeBuf n];
    unfold perform, transfer_write, transfer_read, transfer_writeread;
    cbn [sim_device WritePartial ReadPartial WriteReadPartial];
    cbn [request_count] in Hn;
    try rewrite length_new_Array, Z2Nat.id by lia;
    destruct (Status result); try destruct (_ >? 0);
    (split; [reflexivity|]); cbn [known fst]; congruence.
Qed.

(** X11: one line, one transfer, no retry.  With a simulated device that
    answers with one of the three known statuses, a session ends without
    an exception and the device has received exactly the requests of the
    lines before the first [quit], in their order -- one for every line
    that parses to a transfer, none for the others. *)
Theorem session_transfers_in_order :
  forall (result : I2cTransferResult) (data : list BYTE)
         (wcin : list string) (log : list request) (wcout : wostream),
    known (Status result) = true ->
    fst (ShowPrompt (sim_device result data) log wcin wcout)
    = (None, (log ++ session_requests wcin)%list).
Proof.
  intros result data wcin. induction wcin as [|line wcin IH];
    intros log wcout Hk; cbn [ShowPrompt session_requests].
  - now rewrite app_nil_r.
  - destruct (parse_request line) as [req|] eqn:P.
    + rewrite (ShowPrompt_line_perform _ line req log _ P).
      rewrite (parse_request_not_quit line req P).
      pose proof (parse_request_range line req P) as Hr.
      destruct (sim_perform result data req log (wcout << "> ")
                  (proj1 Hr)) as [Hlog Hflow].
      specialize (Hflow Hk).
      destruct (perform (sim_device result data) req log (wcout << "> "))
        as [[f d1] w1]. cbn [fst snd] in *. subst f d1.
      rewrite IH by exact Hk. now rewrite <- app_assoc.
    + destruct (ShowPrompt_line_no_request (sim_device result data) line log
                  (wcout << "> ") P) as [w ->].
      destruct (quits line); [now rewrite app_nil_r|]. now apply IH.
Qed.

(** A session of four lines: two transfers before [quit], none after. *)
Lemma session_transfers_in_order_witness :
  fst (ShowPrompt (sim_device (mk_result FullTransfer 1) []) []
         ["write { 1 }"%string; "read x"%string; "read 2"%string;
          "quit"%string; "read 3"%string] cout_init)
  = (None, ([] ++ [ReqWrite [x01]; ReqRead 2])%list).
Proof.
  exact (session_transfers_in_order (mk_result FullTransfer 1) []
           ["write { 1 }"%string; "read x"%string; "read 2"%string;
            "quit"%string; "read 3"%string] [] cout_init eq_refl).
Defined.

(** ** Acquiring the device *)

(** X12: when the enumeration does not find exactly one bus -- none, or
    more than one -- [main] prints "Error: I2C bus not found" on the error
    stream and exits with 1; no device is opened, nothing is written to the
    standard output and no line is read. *)
Theorem bus_not_found_exit :
  forall (D : Type) (device : I2cDevice D) (wcstoul : string -> Z)
         (FindAllAsync : option string -> call (list string))
         (FromIdAsync : string -> Z -> call (option D))
         (name arg : string) (more wcin : list string) (dis : list string),
    (arg =? "-h")%string = false ->
    FindAllAsync (friendly more) = Returned dis ->
    List.length dis <> 1%nat ->
    main device wcstoul FindAllAsync FromIdAsync name (arg :: more) wcin
    = {| exit_code := 1; wcout_end := cout_init;
         wcerr_end := cout_init << "Error: " << "I2C bus not found" << nl |}.
Proof.
  intros D device wcstoul FindAllAsync FromIdAsync name arg more wcin dis
    Hh Hf Hl.
  unfold main, MakeDevice. rewrite Hh. fold (friendly more). rewrite Hf.
  destruct dis as [|id [|id2 dis]]; try reflexivity.
  simpl in Hl. congruence.
Qed.

Lemma bus_not_found_exit_witness :
  main (sim_device (mk_result FullTransfer 1) [])
    (fun _ => 87) (fun _ => Returned ["I2C1"%string; "I2C2"%string])
    (fun _ _ => Returned (Some []))
    "I2cTestTool" ["0x57"%string] ["read 1"%string]
  = {| exit_code := 1; wcout_end := cout_init;
       wcerr_end := cout_init << "Error: " << "I2C bus not found" << nl |}.
Proof.
  apply (bus_not_found_exit (list request)
           (sim_device (mk_result FullTransfer 1) [])
           (fun _ => 87) (fun _ => Returned ["I2C1"%string; "I2C2"%string])
           (fun _ _ => Returned (Some []))
           "I2cTestTool" "0x57" [] ["read 1"%string]
           ["I2C1"%string; "I2C2"%string]).
  - reflexivity.
  - reflexivity.
  - discriminate.
Defined.

(** X13: when the one bus is found but the device cannot be opened (a null
    handle), [main] prints an error that names the slave address in base 16
    and the bus, and exits with 1 without reading a line. *)
Theorem device_in_use_exit :
  forall (D : Type) (device : I2cDevice D) (wcstoul : string -> Z)
         (FindAllAsync : option string -> call (list string))
         (FromIdAsync : string -> Z -> call (option D))
         (name arg id : string) (more wcin : list string),
    (arg =? "-h")%string = false ->
    FindAllAsync (friendly more) = Returned [id] ->
    FromIdAsync id (to_int32 (wcstoul arg)) = Returned None ->
    main device wcstoul FindAllAsync FromIdAsync name (arg :: more) wcin
    = {| exit_code := 1; wcout_end := cout_init;
         wcerr_end :=
           cout_init << "Error: "
                     << in_use_message (to_int32 (wcstoul arg)) id << nl |}.
Proof.
  intros D device wcstoul FindAllAsync FromIdAsync name arg id more wcin
    Hh Hf Ho.
  unfold main, MakeDevice. rewrite Hh. fold (friendly more).
  rewrite Hf, Ho. reflexivity.
Qed.

Lemma device_in_use_exit_witness :
  main (sim_device (mk_result FullTransfer 1) [])
    (fun _ => 87) (fun _ => Returned ["I2C1"%string])
    (fun _ _ => Returned None)
    "I2cTestTool" ["0x57"%string] ["read 1"%string]
  = {| exit_code := 1; wcout_end := cout_init;
       wcerr_end :=
         cout_init << "Error: " << in_use_message (to_int32 87) "I2C1" << nl |}.
Proof.
  apply (device_in_use_exit (list request)
           (sim_device (mk_result FullTransfer 1) [])
           (fun _ => 87) (fun _ => Returned ["I2C1"%string])
           (fun _ _ => Returned None)
           "I2cTestTool" "0x57" "I2C1" [] ["read 1"%string]);
    reflexivity.
Defined.

(** X14: [main] exits with 0 or with 1, and an exit with 1 is never
    silent: something has been written to the error stream. *)
Theorem exit_1_is_reported :
  forall (D : Type) (device : I2cDevice D) (wcstoul : string -> Z)
         (FindAllAsync : option string -> call (list string))
         (FromIdAsync : string -> Z -> call (option D))
         (name : string) (params wcin : list string),
    let e := main device wcstoul FindAllAsync FromIdAsync name params wcin in
    (exit_code e = 0 \/ exit_code e = 1) /\
    (exit_code e = 1 -> text (wcerr_end e) <> "").
Proof.
  intros D device wcstoul FindAllAsync FromIdAsync name params wcin.
  unfold main.
  destruct params as [|arg more];
    [split; [right; reflexivity|intros _; discriminate]|].
  destruct (arg =? "-h")%string; [split; [left; reflexivity|discriminate]|].
  destruct (MakeDevice _ _ _ _) as [d|[m|m]].
  - destruct (ShowPrompt device d wcin _) as [[[[m|m]|] d'] w]; cbn zeta.
    + split; [right; reflexivity|intros _; discriminate].
    + split; [left; reflexivity|discriminate].
    + split; [left; reflexivity|discriminate].
  - split; [right; reflexivity|intros _; discriminate].
  - split; [left; reflexivity|discriminate].
Qed.

(** ** The number of bytes to read *)

Lemma all_space_first (ws : string) :
  all_space ws = true -> ws <> "" ->
  exists c r, ws = String c r /\ isspace c = true /\ all_space r = true.
Proof.
  destruct ws as [|c r]; [congruence|]. simpl. intros H _.
  apply andb_prop in H. destruct H as [Hc Hr]. now exists c, r.
Qed.

(** The stream after a command word that white space follows. *)
Lemma extract_word_then (w : string) (c : ascii) (rest : string) :
  no_space w = true -> w <> "" -> isspace c = true ->
  extract_word (wistringstream (w ++ String c rest))
  = ({| rdbuf := String c rest; eofbit := false; failbit := false;
        ihex := false |}, w).
Proof.
  intros Hw Hne Hc.
  assert (Hs : skipws w <> "") by (now rewrite (skipws_word w Hw)).
  rewrite (extract_word_relax c rest Hc w Hs).
  destruct (span_word_word w c rest Hw Hc) as [S1 _].
  unfold extract_word, wistringstream, good.
  cbn [rdbuf eofbit failbit ihex negb andb].
  rewrite (skipws_word w Hw).
  destruct w as [|a w]; [congruence|]. rewrite S1. reflexivity.
Qed.

(** X15: the number of a [read] line is read in base 10.  For every
    [unsigned int] [n], the line "read", white space and [n] in decimal asks
    for a read of exactly [n] bytes. *)
Theorem read_count_is_decimal :
  forall (D : Type) (device : I2cDevice D) (n : Z) (ws : string) (d : D)
         (wcout : wostream),
    0 <= n <= UINT_MAX ->
    all_space ws = true ->
    ws <> "" ->
    parse_request ("read" ++ ws ++ dec_string n) = Some (ReqRead n) /\
    ShowPrompt_line device ("read" ++ ws ++ dec_string n) d wcout
    = transfer_read device n d wcout.
Proof.
  intros D device n ws d wcout Hn Hws Hne.
  assert (P : parse_request ("read" ++ ws ++ dec_string n) = Some (ReqRead n)).
  { destruct (all_space_first ws Hws Hne) as (c & r & -> & Hc & Hr).
    unfold parse_request.
    change (String c r ++ dec_string n) with (String c (r ++ dec_string n)).
    rewrite (extract_word_then "read" c _ eq_refl ltac:(discriminate) Hc).
    cbv beta iota delta [String.eqb Ascii.eqb Bool.eqb].
    change (String c (r ++ dec_string n))
      with (String c r ++ fmt_uint false n).
    rewrite extract_uint_skip by (simpl; now rewrite Hc, Hr).
    rewrite extract_uint_fmt_eof by exact Hn. reflexivity. }
  split; [exact P|].
  now rewrite (ShowPrompt_line_perform device _ _ d wcout P).
Qed.

(** The line [read 300]. *)
Lemma read_count_is_decimal_witness :
  parse_request "read 300" = Some (ReqRead 300).
Proof.
  exact (proj1 (read_count_is_decimal (list request)
                  (sim_device (mk_result FullTransfer 1) []) 300 " " []
                  cout_init ltac:(unfold UINT_MAX; lia) eq_refl
                  ltac:(discriminate))).
Defined.

(** X16: the number of a [writeread] line is read in base 16, because the
    byte-buffer operator leaves the line stream in base 16.  For every
    [unsigned int] [n], a line with [n] written in hexadecimal after the
    buffer asks for a read of [n] bytes: [10] asks for 16. *)
Theorem writeread_count_is_hexadecimal :
  forall (D : Type) (device : I2cDevice D) (bytes : list BYTE) (n : Z)
         (ws : string) (d : D) (wcout : wostream),
    bytes <> [] ->
    0 <= n <= UINT_MAX ->
    all_space ws = true ->
    parse_request ("writeread {" ++ render_bytes bytes ++ " }" ++ ws
                     ++ hex_string n)
    = Some (ReqWriteRead bytes n) /\
    ShowPrompt_line device
      ("writeread {" ++ render_bytes bytes ++ " }" ++ ws ++ hex_string n)
      d wcout
    = transfer_writeread device bytes n d wcout.
Proof.
  intros D device bytes n ws d wcout Hne Hn Hws.
  assert (P : parse_request ("writeread {" ++ render_bytes bytes ++ " }" ++ ws
                               ++ hex_string n)
              = Some (ReqWriteRead bytes n)).
  { unfold parse_request.
    change ("writeread {" ++ render_bytes bytes ++ " }" ++ ws ++ hex_string n)
      with ("writeread" ++ String " " ("{" ++ render_bytes bytes ++ " }" ++ ws
                                          ++ hex_string n)).
    rewrite (extract_word_then "writeread" " " _ eq_refl ltac:(discriminate)
               eq_refl).
    cbv beta iota delta [String.eqb Ascii.eqb Bool.eqb].
    change (String " " ("{" ++ render_bytes bytes ++ " }" ++ ws ++ hex_string n))
      with (" " ++ "{" ++ render_bytes bytes ++ " }" ++ (ws ++ hex_string n)).
    rewrite (operator_in_bytes_render bytes " " _ false cout_init Hne eq_refl).
    cbn [fail failbit].
    change (hex_string n) with (fmt_uint true n).
    rewrite extract_uint_skip by exact Hws.
    rewrite extract_uint_fmt_eof by exact Hn. reflexivity. }
  split; [exact P|].
  now rewrite (ShowPrompt_line_perform device _ _ d wcout P).
Qed.

(** The line [writeread { ff } 10]. *)
Lemma writeread_count_is_hexadecimal_witness :
  parse_request "writeread { ff } 10" = Some (ReqWriteRead [xff] 16).
Proof.
  exact (proj1 (writeread_count_is_hexadecimal (list request)
                  (sim_device (mk_result FullTransfer 1) []) [xff] 16 " " []
                  cout_init ltac:(discriminate) ltac:(unfold UINT_MAX; lia)
                  eq_refl)).
Defined.

(** ** The operator for results *)

(** X17: the [switch] of the [write] branch prints exactly what
    [operator<<] for an [I2cTransferResult] prints, and throws when it
    throws: nothing for a full transfer, the count for a partial one, the
    fixed line when the address was not acknowledged, and the [wexception]
    for any other status. *)
Theorem write_switch_is_result_operator :
  forall (D : Type) (device : I2cDevice D) (writeBuf : list BYTE) (d : D)
         (wcout : wostream),
    transfer_write device writeBuf d wcout
    = match WritePartial device d writeBuf with
      | (Raised m, d') => (Throw (Platform_Exception m), d', wcout)
      | (Returned result, d') =>
          match operator_out_result wcout result with
          | inl os => (Next, d', os)
          | inr e => (Throw e, d', wcout)
          end
      end.
Proof.
  intros D device writeBuf d wcout.
  unfold transfer_write, operator_out_result.
  destruct (WritePartial device d writeBuf) as [[r|m] d']; [|reflexivity].
  destruct (Status r); reflexivity.
Qed.

(** X18: a write never prints bytes.  When the device answers a write with
    [FullTransfer] the program prints nothing at all; when it answers with
    [PartialTransfer] the program prints the line with the count and
    nothing else. *)
Theorem write_prints_no_bytes :
  forall (D : Type) (device : I2cDevice D) (line : string)
         (writeBuf : list BYTE) (d d' : D) (wcout : wostream)
         (result : I2cTransferResult),
    parse_request line = Some (ReqWrite writeBuf) ->
    WritePartial device d writeBuf = (Returned result, d') ->
    (Status result = FullTransfer ->
     ShowPrompt_line device line d wcout = (Next, d', wcout)) /\
    (Status result = PartialTransfer ->
     ShowPrompt_line device line d wcout
     = (Next, d',
        wcout << partial_transfer_line (ohex wcout) (BytesTransferred result))).
Proof.
  intros D device line writeBuf d d' wcout result Hreq Hw.
  rewrite (ShowPrompt_line_perform device line _ d wcout Hreq).
  unfold perform, transfer_write. rewrite Hw.
  split; intros ->; [reflexivity|].
  unfold partial_transfer_line, put_uint, put_str. cbn [text ohex].
  now rewrite !append_assoc.
Qed.

(** A write of three bytes that is fully transferred. *)
Lemma write_prints_no_bytes_witness :
  ShowPrompt_line (sim_device (mk_result FullTransfer 3) [])
    "write { 01 02 03 }" [] cout_init
  = (Next, [ReqWrite [x01; x02; x03]], cout_init).
Proof.
  apply (write_prints_no_bytes (list request)
           (sim_device (mk_result FullTransfer 3) []) "write { 01 02 03 }"
           [x01; x02; x03] [] [ReqWrite [x01; x02; x03]] cout_init
           (mk_result FullTransfer 3)).
  - vm_compute. reflexivity.
  - reflexivity.
  - reflexivity.
Defined.
